(** * Bookstore inventory (Task_two): entities, ledger, repository, persistence

    A shallow embedding of [src/Task_two/book.py] and of the class
    [BookstoreInventory] of [src/Task_two/inventory.py].

    - Python [int] is [Z]; Python [float] is IEEE-754 binary64, taken from the
      executable specification [SpecFloat] of the Standard Library
      (precision 53, exponent bound 1024, round to nearest even).
    - Python [str] is [string]; a character stands for a code point below 256.
    - A Python [dict] is an insertion-ordered association list with unique
      keys (module [PyDict]); the file system is a finite map from paths to
      file contents.
    - An exception is a value of [PyExc]; code that can raise lives in the
      error monad [Py]; a [try/except Exception] is a [match] on the result.
    - [datetime.now().isoformat()] and [input(...)] are inputs of the
      environment and appear as explicit arguments. [print] is not modelled. *)

From stdpp Require Import base gmap strings list.
From Stdlib Require Import ZArith Lia List String Ascii Bool.
From Stdlib Require Import Floats.SpecFloat.
From Stdlib Require DecimalString.
Import ListNotations.

Local Open Scope string_scope.
Local Open Scope Z_scope.

(** ** Exceptions and the error monad *)

Inductive PyExc : Type :=
| AttributeError (name : string)
| KeyError (key : string)
| ValueError
| OverflowError
| ZeroDivisionError
| JSONDecodeError.

Definition Py (A : Type) : Type := (PyExc + A)%type.

Definition ret {A} (a : A) : Py A := inr a.
Definition raise {A} (e : PyExc) : Py A := inl e.
Definition bind {A B} (c : Py A) (k : A -> Py B) : Py B :=
  match c with
  | inl e => inl e
  | inr a => k a
  end.

Notation "'let*' x ':=' c 'in' k" := (bind c (fun x => k))
  (at level 61, x name, c at next level, k at level 200, right associativity).

Definition returns {A} (c : Py A) : bool :=
  match c with inr _ => true | inl _ => false end.

(** ** Binary64 arithmetic as Python performs it *)

Module F64.

Definition prec : Z := 53.
Definition emax : Z := 1024.

Abbreviation float := spec_float.

Definition zero : float := S754_zero false.

(** [x * y] on two floats. *)
Definition mul (x y : float) : float := SFmul prec emax x y.

(** [x <= y] on two floats; false when either is a NaN. *)
Definition leb (x y : float) : bool := SFleb x y.

(** [0 <= x], the test [x >= 0]. *)
Definition nonneg (x : float) : bool := leb zero x.

(** Conversion of an [int] operand in a mixed [float * int] product:
    correctly rounded, [OverflowError] when out of range. *)
Definition of_int (z : Z) : Py float :=
  match binary_normalize prec emax z 0 false with
  | S754_infinity _ => raise OverflowError
  | f => ret f
  end.

(** [x * n] for a float [x] and an int [n]. *)
Definition mul_int (x : float) (n : Z) : Py float :=
  let* y := of_int n in
  ret (mul x y).

(** The nearest float to [a / b], before the overflow test. *)
Definition div_round (a b : Z) : float :=
  if a =? 0 then S754_zero (b <? 0)
  else
    let '(q, e, l) := SFdiv_core_binary prec emax (Z.abs a) 0 (Z.abs b) 0 in
    binary_round_aux prec emax (xorb (a <? 0) (b <? 0)) q e l.

(** [a / b] on two ints: true division, correctly rounded. *)
Definition int_truediv (a b : Z) : Py float :=
  if b =? 0 then raise ZeroDivisionError
  else
    match div_round a b with
    | S754_infinity _ => raise OverflowError
    | f => ret f
    end.

(** [math.ceil(x)]: an exact [int]; NaN and the infinities raise. *)
Definition ceil (x : float) : Py Z :=
  match x with
  | S754_nan => raise ValueError
  | S754_infinity _ => raise OverflowError
  | S754_zero _ => ret 0
  | S754_finite s m e =>
      let v := if s then Z.neg m else Z.pos m in
      if 0 <=? e then ret (v * 2 ^ e)
      else ret (- ((- v) / 2 ^ (- e)))
  end.

(** The float that the decimal literal with digits [m] and [k] places after
    the point denotes: [m / 10^k], correctly rounded. *)
Definition decimal (m : Z) (k : nat) : float := div_round m (10 ^ Z.of_nat k).

(** [math.ceil(x * 100) / 100] for a float [x]. *)
Definition ceil_cents (x : float) : Py float :=
  let* y := mul_int x 100 in
  let* n := ceil y in
  int_truediv n 100.

(** A float that is a zero, a finite number or an infinity of sign [sx]. *)
Definition signed (sx : bool) (f : float) : Prop :=
  match f with
  | S754_zero s | S754_infinity s | S754_finite s _ _ => s = sx
  | S754_nan => False
  end.

(** A zero of either sign, or a float of positive sign. *)
Definition zero_or_positive (f : float) : Prop :=
  match f with
  | S754_zero _ => True
  | S754_infinity s | S754_finite s _ _ => s = false
  | S754_nan => False
  end.

End F64.

Abbreviation float := spec_float.

(** ** Python strings *)

Module PyStr.

(** [c.isspace()] for a code point below 256. *)
Definition is_space (c : ascii) : bool :=
  let n := Z.of_N (N_of_ascii c) in
  ((9 <=? n) && (n <=? 13)) || ((28 <=? n) && (n <=? 32))
  || (n =? 133) || (n =? 160).

(** [c.lower()] for a code point below 256. *)
Definition lower_char (c : ascii) : ascii :=
  let n := N_of_ascii c in
  if (((65 <=? n) && (n <=? 90))
      || ((192 <=? n) && (n <=? 222) && negb (n =? 215)))%N
  then ascii_of_N (n + 32)
  else c.

Fixpoint lower (s : string) : string :=
  match s with
  | EmptyString => EmptyString
  | String c s' => String (lower_char c) (lower s')
  end.

Fixpoint lstrip (s : string) : string :=
  match s with
  | EmptyString => EmptyString
  | String c s' => if is_space c then lstrip s' else s
  end.

Fixpoint rstrip (s : string) : string :=
  match s with
  | EmptyString => EmptyString
  | String c s' =>
      match rstrip s' with
      | EmptyString => if is_space c then EmptyString else String c EmptyString
      | r => String c r
      end
  end.

(** [s.strip()] *)
Definition strip (s : string) : string := rstrip (lstrip s).

(** [needle in hay] *)
Fixpoint contains (needle hay : string) : bool :=
  if String.prefix needle hay then true
  else
    match hay with
    | EmptyString => false
    | String _ hay' => contains needle hay'
    end.

(** Every character of [s] is whitespace ([s] may be empty). *)
Fixpoint all_space (s : string) : bool :=
  match s with
  | EmptyString => true
  | String c s' => is_space c && all_space s'
  end.

End PyStr.

(** ** Formatting and slicing *)

Module PyFormat.

(** [str(n)], also [f"{n}"], for an int [n]: decimal digits, with a minus
    sign for a negative number. *)
Definition str (n : Z) : string :=
  DecimalString.NilZero.string_of_int (Z.to_int n).

(** [l[start:]]: a negative [start] counts from the end, and both ends are
    clipped to the list. *)
Definition slice_from {A} (start : Z) (l : list A) : list A :=
  let n := Z.of_nat (List.length l) in
  let i := if start <? 0 then Z.max (n + start) 0 else Z.min start n in
  skipn (Z.to_nat i) l.

(** [enumerate(l, start)] *)
Fixpoint enumerate {A} (start : Z) (l : list A) : list (Z * A) :=
  match l with
  | [] => []
  | x :: l' => (start, x) :: enumerate (start + 1) l'
  end.

End PyFormat.

(** ** Python dictionaries keyed by strings *)

Module PyDict.

Definition t (V : Type) : Type := list (string * V).

Definition empty {V} : t V := [].

(** [d.get(k)] *)
Fixpoint get {V} (k : string) (d : t V) : option V :=
  match d with
  | [] => None
  | (k', v) :: d' => if String.eqb k k' then Some v else get k d'
  end.

(** [k in d] *)
Definition mem {V} (k : string) (d : t V) : bool :=
  match get k d with Some _ => true | None => false end.

(** [d[k] = v]: an existing key keeps its position, a new one goes last. *)
Fixpoint set {V} (k : string) (v : V) (d : t V) : t V :=
  match d with
  | [] => [(k, v)]
  | (k', v') :: d' =>
      if String.eqb k k' then (k', v) :: d' else (k', v') :: set k v d'
  end.

(** The dictionary without the key [k]. *)
Fixpoint remove {V} (k : string) (d : t V) : t V :=
  match d with
  | [] => []
  | (k', v') :: d' =>
      if String.eqb k k' then remove k d' else (k', v') :: remove k d'
  end.

(** [del d[k]] *)
Definition del {V} (k : string) (d : t V) : Py (t V) :=
  if mem k d then ret (remove k d) else raise (KeyError k).

(** [d.values()], [d.keys()] and [len(d)]; [d.items()] is the list itself. *)
Definition values {V} (d : t V) : list V := map snd d.
Definition keys {V} (d : t V) : list string := map fst d.
Definition len {V} (d : t V) : Z := Z.of_nat (List.length d).

End PyDict.

(** ** Entity: [class Book] *)

(** A parsed JSON object holding a book; [None] is a key that is missing.
    Values are taken at the types [Book.__init__] annotates. *)
Record book_data : Type := mk_book_data {
  data_title : option string;
  data_author : option string;
  data_price : option float;
  data_stock : option Z
}.

(** [data[key]] on a parsed object. *)
Definition getitem {A} (key : string) (field : option A) : Py A :=
  match field with
  | Some v => ret v
  | None => raise (KeyError key)
  end.

Module Book.

Record t : Type := mk {
  title : string;
  author : string;
  price : float;
  stock : Z
}.

Definition __init__ (title author : string) (price : float) (stock : Z) : Py t :=
  let title' := PyStr.strip title in
  let author' := PyStr.strip author in
  let* price' := F64.ceil_cents price in
  ret (mk title' author' price' (Z.max 0 stock)).

(** The updated book and the returned flag. *)
Definition update_stock (self : t) (quantity : Z) : t * bool :=
  let new_stock := stock self + quantity in
  if new_stock <? 0 then (self, false)
  else (mk (title self) (author self) (price self) new_stock, true).

Definition update_price (self : t) (new_price : float) : Py t :=
  let* price' := F64.ceil_cents new_price in
  ret (mk (title self) (author self) price' (stock self)).

Definition calculate_value (self : t) : Py float :=
  let* v := F64.mul_int (price self) (stock self) in
  let* w := F64.mul_int v 100 in
  let* n := F64.ceil w in
  F64.int_truediv n 100.

Definition is_in_stock (self : t) : bool := 0 <? stock self.

Definition is_low_stock (self : t) (threshold : Z) : bool :=
  (0 <? stock self) && (stock self <=? threshold).

Definition to_dict (self : t) : book_data :=
  mk_book_data (Some (title self)) (Some (author self))
               (Some (price self)) (Some (stock self)).

Definition from_dict (data : book_data) : Py t :=
  let* title := getitem "title" (data_title data) in
  let* author := getitem "author" (data_author data) in
  let* price := getitem "price" (data_price data) in
  let* stock := getitem "stock" (data_stock data) in
  __init__ title author price stock.

(** The invariant of an entity: [stock >= 0] and [price >= 0]. *)
Definition invariant (b : t) : Prop :=
  0 <= stock b /\ F64.nonneg (price b) = true.

End Book.

(** ** Ledger entries *)

(** A value stored in the [details] dictionary of a ledger entry. *)
Inductive detail : Type :=
| DStr (s : string)
| DInt (z : Z)
| DFloat (f : float).

Module Entry.

Record t : Type := mk {
  timestamp : string;
  action : string;
  title : string;
  details : PyDict.t detail
}.

End Entry.

(** ** The persisted document and the file system *)

(** The JSON object [save_inventory] builds and [load_inventory] reads;
    [None] is a key that is missing. *)
Record document : Type := mk_document {
  doc_books : option (PyDict.t book_data);
  doc_transaction_log : option (list Entry.t);
  doc_last_updated : option string;
  doc_total_books : option Z;
  doc_total_inventory_value : option float
}.

(** What a file holds, as [json.load] sees it: text that is not JSON, JSON
    whose top-level value is not an object, or an object. [json.dump]
    followed by [json.load] gives the value back, so a written file is the
    document itself. *)
Inductive file : Type :=
| Garbage
| NonObject
| Document (d : document).

Abbreviation filesystem := (gmap string file).

Definition os_path_exists (path : string) (fs : filesystem) : bool :=
  match fs !! path with Some _ => true | None => false end.

(** [os.rename(src, dst)]: replaces [dst] when it exists. *)
Definition os_rename (src dst : string) (fs : filesystem) : filesystem :=
  match fs !! src with
  | Some f => <[dst := f]> (delete src fs)
  | None => fs
  end.

(** ** Repository: [class BookstoreInventory] *)

Module BookstoreInventory.

Record t : Type := mk {
  json_file : string;
  books : PyDict.t Book.t;
  transaction_log : list Entry.t
}.

Definition with_books (self : t) (b : PyDict.t Book.t) : t :=
  mk (json_file self) b (transaction_log self).

Definition with_transaction_log (self : t) (l : list Entry.t) : t :=
  mk (json_file self) (books self) l.

(** The names an instance answers to: the attributes [__init__] assigns and
    the methods the class body defines. *)
Definition attributes : list string :=
  [ "json_file"; "books"; "transaction_log";
    "__init__"; "save_inventory"; "load_inventory"; "add_book"; "find_book";
    "get_book_by_title"; "update_stock"; "sell_book"; "restock_book";
    "update_price"; "remove_book"; "log_transaction"; "view_transaction_log" ].

Definition hasattr (name : string) : bool :=
  existsb (String.eqb name) attributes.

(** [self.name(...)]: the attribute lookup comes first and raises
    [AttributeError] for a name the instance does not have. Calls of
    methods the class defines are written as plain applications below. *)
Definition call_method {A} (name : string) (body : Py A) : Py A :=
  if hasattr name then body else raise (AttributeError name).

Definition log_transaction (now : string) (self : t)
    (action title : string) (details : PyDict.t detail) : t :=
  with_transaction_log self
    (transaction_log self ++ [Entry.mk now action title details]).

Definition get_book_by_title (self : t) (title : string) : option Book.t :=
  PyDict.get title (books self).

Definition add_book (now : string) (self : t)
    (title author : string) (price : float) (stock : Z) : Py (t * string) :=
  let* book := Book.__init__ title author price stock in
  if PyDict.mem (Book.title book) (books self) then
    ret (self, Book.title book)
  else
    let self1 :=
      with_books self (PyDict.set (Book.title book) book (books self)) in
    let self2 :=
      log_transaction now self1 "ADD_BOOK" (Book.title book)
        [ ("title", DStr (Book.title book));
          ("author", DStr (Book.author book));
          ("price", DFloat (Book.price book));
          ("initial_stock", DInt stock) ] in
    ret (self2, Book.title book).

Definition matches (search_term : string) (book : Book.t) : bool :=
  PyStr.contains search_term (PyStr.lower (Book.title book))
  || PyStr.contains search_term (PyStr.lower (Book.author book))
  || PyStr.contains search_term (PyStr.lower (Book.title book)).

Definition find_book (self : t) (search_term : string) : list Book.t :=
  let search_term := PyStr.strip (PyStr.lower search_term) in
  filter (fun book => matches search_term book) (PyDict.values (books self)).

Definition update_stock (now : string) (self : t)
    (title : string) (quantity_change : Z) (reason : string) : t * bool :=
  match get_book_by_title self title with
  | None => (self, false)
  | Some book =>
      let old_stock := Book.stock book in
      match Book.update_stock book quantity_change with
      | (book', true) =>
          let self1 := with_books self (PyDict.set title book' (books self)) in
          (log_transaction now self1 "STOCK_UPDATE" title
             [ ("old_stock", DInt old_stock);
               ("new_stock", DInt (Book.stock book'));
               ("change", DInt quantity_change);
               ("reason", DStr reason) ],
           true)
      | (_, false) => (self, false)
      end
  end.

Definition update_price (now : string) (self : t)
    (title : string) (new_price : float) : Py (t * bool) :=
  match get_book_by_title self title with
  | None => ret (self, false)
  | Some book =>
      let old_price := Book.price book in
      let* book' := Book.update_price book new_price in
      let self1 := with_books self (PyDict.set title book' (books self)) in
      ret (log_transaction now self1 "PRICE_UPDATE" title
             [ ("old_price", DFloat old_price);
               ("new_price", DFloat (Book.price book')) ],
           true)
  end.

(** The caller's answer to the prompt counts as a confirmation when it
    lowercases to [y]. *)
Definition confirmed (answer : string) : bool :=
  String.eqb (PyStr.lower answer) "y".

(** [answer] is what [input(...)] returns; it is read only when the book
    still has stock. *)
Definition remove_book (now : string) (answer : string) (self : t)
    (title : string) : Py (t * bool) :=
  match get_book_by_title self title with
  | None => ret (self, false)
  | Some book =>
      if (0 <? Book.stock book) && negb (confirmed answer) then
        ret (self, false)
      else
        let self1 :=
          log_transaction now self "REMOVE_BOOK" title
            [ ("title", DStr (Book.title book));
              ("author", DStr (Book.author book));
              ("final_stock", DInt (Book.stock book)) ] in
        let* books' := PyDict.del title (books self1) in
        ret (with_books self1 books', true)
  end.

(** Modelled from the spec: the method [calculate_total_inventory_value]
    that [save_inventory] calls is defined by no class or module of the
    repository. The spec gives the value it stands for: the sum over the
    entities of each entity's own rounded-up value. *)
Definition calculate_total_inventory_value (self : t) : Py float :=
  fold_left
    (fun acc book =>
       let* total := acc in
       let* v := Book.calculate_value book in
       ret (SFadd F64.prec F64.emax total v))
    (PyDict.values (books self)) (ret F64.zero).

(** The dictionary literal [data] of [save_inventory]; its values are
    evaluated in the order they are written. *)
Definition build_data (now : string) (self : t) : Py document :=
  let books_d := map (fun '(title, book) => (title, Book.to_dict book)) (books self) in
  let log := transaction_log self in
  let last_updated := now in
  let total_books := PyDict.len (books self) in
  let* total :=
    call_method "calculate_total_inventory_value"
      (calculate_total_inventory_value self) in
  ret (mk_document (Some books_d) (Some log) (Some last_updated)
         (Some total_books) (Some total)).

(** The file system after the call and the returned flag. The [try] block
    keeps the effects that happened before an exception. *)
Definition save_inventory (now : string) (self : t) (fs : filesystem)
    : filesystem * bool :=
  let fs1 :=
    if os_path_exists (json_file self) fs then
      let backup_file := (json_file self ++ ".backup")%string in
      os_rename (json_file self) backup_file fs
    else fs in
  match build_data now self with
  | inl _ => (fs1, false)
  | inr data => (<[json_file self := Document data]> fs1, true)
  end.

(** The loop [for title, book_data in books_data.items()] with the books it
    stored before an exception, if any, stopped it. *)
Fixpoint load_books (items : PyDict.t book_data) (books : PyDict.t Book.t)
    : PyDict.t Book.t * Py unit :=
  match items with
  | [] => (books, ret tt)
  | (title, book_data) :: rest =>
      match Book.from_dict book_data with
      | inl e => (books, raise e)
      | inr book => load_books rest (PyDict.set title book books)
      end
  end.

(** [data = json.load(f)] up to the first [data.get]: text that is not JSON
    raises in [json.load], a value that is not an object has no [get]. *)
Definition json_load (f : file) : Py document :=
  match f with
  | Garbage => raise JSONDecodeError
  | NonObject => raise (AttributeError "get")
  | Document data => ret data
  end.

(** The repository after the call and the returned flag; every exception
    ends in the [except] clause, which returns [False]. *)
Definition load_inventory (self : t) (fs : filesystem) : t * bool :=
  match fs !! json_file self with
  | Some f =>
      match json_load f with
      | inl _ => (self, false)
      | inr data =>
          let books_data := default [] (doc_books data) in
          match load_books books_data (books self) with
          | (books', inl _) => (with_books self books', false)
          | (books', inr _) =>
              (with_transaction_log (with_books self books')
                 (default [] (doc_transaction_log data)),
               true)
          end
      end
  | None => (self, true)
  end.

Definition __init__ (json_file : string) (fs : filesystem) : t :=
  fst (load_inventory (mk json_file [] []) fs).

Definition sell_book (now : string) (self : t) (title : string)
    (quantity : Z) : t * bool :=
  update_stock now self title (- quantity)
    ("Sale of " ++ PyFormat.str quantity ++ " units")%string.

Definition restock_book (now : string) (self : t) (title : string)
    (quantity : Z) : t * bool :=
  update_stock now self title quantity
    ("Restock of " ++ PyFormat.str quantity ++ " units")%string.

(** [details[key]] *)
Definition getdetail (key : string) (details : PyDict.t detail) : Py detail :=
  match PyDict.get key details with
  | Some v => ret v
  | None => raise (KeyError key)
  end.

(** The format [:.2f] takes a number and refuses a string. *)
Definition format_f (v : detail) : Py unit :=
  match v with
  | DStr _ => raise ValueError
  | DInt _ | DFloat _ => ret tt
  end.

(** The format [:+d] takes an int and refuses a float or a string. *)
Definition format_d (v : detail) : Py unit :=
  match v with
  | DInt _ => ret tt
  | DStr _ | DFloat _ => raise ValueError
  end.

(** The body of the loop of [view_transaction_log] for one transaction:
    the keys of [details] it reads, in the order it reads them, and the
    formats it applies. The text printed is not modelled. *)
Definition print_transaction (transaction : Entry.t) : Py unit :=
  let action := Entry.action transaction in
  let details := Entry.details transaction in
  if String.eqb action "ADD_BOOK" then
    let* _ := getdetail "title" details in
    let* _ := getdetail "author" details in
    let* price := getdetail "price" details in
    let* _ := format_f price in
    let* _ := getdetail "initial_stock" details in
    ret tt
  else if String.eqb action "STOCK_UPDATE" then
    let* _ := getdetail "old_stock" details in
    let* _ := getdetail "new_stock" details in
    let* change := getdetail "change" details in
    let* _ := format_d change in
    let* _ := getdetail "reason" details in
    ret tt
  else if String.eqb action "PRICE_UPDATE" then
    let* old_price := getdetail "old_price" details in
    let* _ := format_f old_price in
    let* new_price := getdetail "new_price" details in
    let* _ := format_f new_price in
    ret tt
  else if String.eqb action "REMOVE_BOOK" then
    let* _ := getdetail "title" details in
    ret tt
  else ret tt.

(** The loop over the numbered transactions; it stops at the first one
    that raises. *)
Fixpoint print_transactions (numbered : list (Z * Entry.t))
    : Py (list (Z * Entry.t)) :=
  match numbered with
  | [] => ret []
  | (i, transaction) :: rest =>
      let* _ := print_transaction transaction in
      let* shown := print_transactions rest in
      ret ((i, transaction) :: shown)
  end.

(** The transactions [view_transaction_log] prints, each with the number
    it prints before it, in the order of the printout. *)
Definition view_transaction_log (self : t) (limit : Z)
    : Py (list (Z * Entry.t)) :=
  match transaction_log self with
  | [] => ret []
  | _ =>
      let recent_transactions :=
        PyFormat.slice_from (- limit) (transaction_log self) in
      print_transactions (PyFormat.enumerate 1 (rev recent_transactions))
  end.

End BookstoreInventory.

(** ** Ledger entries of each kind, and the scenarios of the properties *)

Module Scenario.

Import BookstoreInventory.

Definition backup_of (path : string) : string := (path ++ ".backup")%string.

(** A parsed book that lacks one of the four keys [from_dict] reads. *)
Definition missing_field (data : book_data) : Prop :=
  data_title data = None \/ data_author data = None
  \/ data_price data = None \/ data_stock data = None.

(** A repository holding one copy of Dune with three units in stock. *)
Definition dune : Book.t := Book.mk "Dune" "Herbert" (F64.decimal 2101 2) 3.

Definition dune_shop : t := mk "books.json" [("Dune", dune)] [].

Definition empty_shop : t := mk "books.json" [] [].

(** The entry [update_stock] logs. *)
Definition stock_update_entry (now title : string)
    (old_stock new_stock change : Z) (reason : string) : Entry.t :=
  Entry.mk now "STOCK_UPDATE" title
    [ ("old_stock", DInt old_stock); ("new_stock", DInt new_stock);
      ("change", DInt change); ("reason", DStr reason) ].

(** The entry [add_book] logs. *)
Definition add_entry (now : string) (book : Book.t) (initial_stock : Z)
    : Entry.t :=
  Entry.mk now "ADD_BOOK" (Book.title book)
    [ ("title", DStr (Book.title book)); ("author", DStr (Book.author book));
      ("price", DFloat (Book.price book));
      ("initial_stock", DInt initial_stock) ].

(** The entry [remove_book] logs. *)
Definition remove_entry (now title : string) (book : Book.t) : Entry.t :=
  Entry.mk now "REMOVE_BOOK" title
    [ ("title", DStr (Book.title book)); ("author", DStr (Book.author book));
      ("final_stock", DInt (Book.stock book)) ].


(** A document whose second book has no author. *)
Definition half_good : document :=
  mk_document
    (Some [ ("Dune", Book.to_dict dune);
            ("Emma", mk_book_data (Some "Emma") None
                       (Some (F64.decimal 5 0)) (Some 1)) ])
    (Some []) (Some "t0") (Some 2) (Some (F64.decimal 6803 2)).

Definition half_good_fs : filesystem := {[ "books.json" := Document half_good ]}.

End Scenario.

(** ** Conditions on floats, repositories and ledger entries *)

Module Conditions.

Import BookstoreInventory.

(** A string that is empty or starts with a character that is no space. *)
Definition head_ok (s : string) : Prop :=
  match s with
  | EmptyString => True
  | String c _ => PyStr.is_space c = false
  end.

(** A float that is a zero or a finite number. *)
Definition finite (f : float) : Prop :=
  match f with
  | S754_zero _ | S754_finite _ _ _ => True
  | S754_infinity _ | S754_nan => False
  end.

(** A stored book under its key: the key is the title of the book, it is
    stripped, and the stock is not negative. *)
Definition stored_ok (kb : string * Book.t) : Prop :=
  Book.title (snd kb) = fst kb
  /\ PyStr.strip (fst kb) = fst kb
  /\ 0 <= Book.stock (snd kb).

(** The shape of [books] that the operations of the repository keep. *)
Definition consistent (self : t) : Prop :=
  NoDup (PyDict.keys (books self)) /\ Forall stored_ok (books self).

(** A ledger entry that [view_transaction_log] can print. *)
Definition printable (e : Entry.t) : Prop := print_transaction e = inr tt.

(** The entry [update_price] logs. *)
Definition price_update_entry (now title : string) (old_price new_price : float)
    : Entry.t :=
  Entry.mk now "PRICE_UPDATE" title
    [ ("old_price", DFloat old_price); ("new_price", DFloat new_price) ].

(** The ledger [new] is the ledger [old] followed by [n] entries, each
    stamped [now] and filed under [key]. *)
Definition appended (now key : string) (old new : list Entry.t) (n : nat)
    : Prop :=
  exists suffix,
    new = (old ++ suffix)%list
    /\ List.length suffix = n
    /\ Forall (fun e => Entry.timestamp e = now /\ Entry.title e = key) suffix.

(** A book with the stock replaced. *)
Definition with_stock (b : Book.t) (stock : Z) : Book.t :=
  Book.mk (Book.title b) (Book.author b) (Book.price b) stock.

(** An entry of a hand-written document: its details lack the price. *)
Definition bare_entry : Entry.t :=
  Entry.mk "t0" "ADD_BOOK" "Dune" [ ("title", DStr "Dune"); ("author", DStr "Herbert") ].

(** A repository with two books; Emma is out of stock. *)
Definition emma : Book.t := Book.mk "Emma" "Austen" (F64.decimal 5 0) 0.

Definition two_books : t :=
  mk "books.json" [("Dune", Scenario.dune); ("Emma", emma)] [].

(** A document holding both books and a ledger of one entry. *)
Definition full_document : document :=
  mk_document
    (Some [ ("Dune", Book.to_dict Scenario.dune); ("Emma", Book.to_dict emma) ])
    (Some [ Scenario.add_entry "t0" Scenario.dune 3 ])
    (Some "t0") (Some 2) (Some (F64.decimal 6303 2)).

Definition full_fs : filesystem := {[ "books.json" := Document full_document ]}.

End Conditions.

(** * Properties *)

(** ** Dictionaries *)

Module PyDictFacts.

Section Facts.
Context {V : Type}.
Implicit Types (d : PyDict.t V) (k : string) (v : V).

Lemma get_set_eq d k v : PyDict.get k (PyDict.set k v d) = Some v.
Proof.
  induction d as [|[k' v'] d IH]; simpl.
  - now rewrite String.eqb_refl.
  - destruct (String.eqb k k') eqn:E; simpl; rewrite E; auto.
Qed.

Lemma get_set_ne d k k' v :
  k <> k' -> PyDict.get k' (PyDict.set k v d) = PyDict.get k' d.
Proof.
  intros Hne. induction d as [|[k0 v0] d IH]; simpl.
  - destruct (String.eqb_spec k' k); congruence.
  - destruct (String.eqb_spec k k0) as [->|Hk]; simpl.
    + destruct (String.eqb_spec k' k0); congruence.
    + destruct (String.eqb_spec k' k0); auto.
Qed.

Lemma keys_set_mem d k v :
  PyDict.mem k d = true -> PyDict.keys (PyDict.set k v d) = PyDict.keys d.
Proof.
  unfold PyDict.mem, PyDict.keys.
  induction d as [|[k0 v0] d IH]; simpl; [discriminate|].
  destruct (String.eqb k k0) eqn:E; simpl; [reflexivity|].
  intros H. now rewrite IH.
Qed.

Lemma set_fresh d k v :
  PyDict.mem k d = false -> PyDict.set k v d = (d ++ [(k, v)])%list.
Proof.
  unfold PyDict.mem.
  induction d as [|[k0 v0] d IH]; simpl; [reflexivity|].
  destruct (String.eqb k k0) eqn:E; [discriminate|].
  intros H. now rewrite IH.
Qed.

Lemma get_remove_eq d k : PyDict.get k (PyDict.remove k d) = None.
Proof.
  induction d as [|[k0 v0] d IH]; simpl; [reflexivity|].
  destruct (String.eqb k k0) eqn:E; simpl; [assumption|].
  now rewrite E.
Qed.

Lemma get_remove_ne d k k' :
  k <> k' -> PyDict.get k' (PyDict.remove k d) = PyDict.get k' d.
Proof.
  intros Hne. induction d as [|[k0 v0] d IH]; simpl; [reflexivity|].
  destruct (String.eqb_spec k k0) as [->|Hk]; simpl.
  - destruct (String.eqb_spec k' k0); congruence.
  - destruct (String.eqb_spec k' k0); auto.
Qed.

Lemma del_present d k v :
  PyDict.get k d = Some v -> PyDict.del k d = inr (PyDict.remove k d).
Proof. unfold PyDict.del, PyDict.mem. now intros ->. Qed.
End Facts.

End PyDictFacts.

(** ** Signs through rounding *)

Module F64Facts.

Lemma mul_int_hundred x :
  F64.mul_int x 100
  = inr (F64.mul x (S754_finite false 7036874417766400 (-46))).
Proof.
  unfold F64.mul_int.
  replace (F64.of_int 100)
    with (@inr PyExc float (S754_finite false 7036874417766400 (-46)))
    by (vm_compute; reflexivity).
  reflexivity.
Qed.

Lemma shr_1_nonneg mrs : 0 <= shr_m mrs -> 0 <= shr_m (shr_1 mrs).
Proof.
  destruct mrs as [m r s]; simpl.
  destruct m as [|p|p]; [|destruct p|destruct p]; simpl; lia.
Qed.

Lemma iter_shr_1_nonneg p :
  forall mrs, 0 <= shr_m mrs -> 0 <= shr_m (iter_pos shr_1 p mrs).
Proof.
  induction p as [p IH|p IH|]; intros mrs H; simpl.
  - apply IH, IH, shr_1_nonneg, H.
  - apply IH, IH, H.
  - apply shr_1_nonneg, H.
Qed.

Lemma shr_fexp_nonneg m e l :
  0 <= m -> 0 <= shr_m (fst (shr_fexp F64.prec F64.emax m e l)).
Proof.
  intros Hm. unfold shr_fexp, shr.
  assert (H0 : 0 <= shr_m (shr_record_of_loc m l)).
  { destruct l as [|[]]; simpl; exact Hm. }
  destruct (fexp F64.prec F64.emax (Zdigits2 m + e) - e); simpl; auto.
  now apply iter_shr_1_nonneg.
Qed.

Lemma round_nearest_even_nonneg m l : 0 <= m -> 0 <= round_nearest_even m l.
Proof.
  intros Hm. destruct l as [|[]]; simpl; try lia.
  destruct (Z.even m); lia.
Qed.

Lemma binary_round_aux_signed sx mx ex lx :
  0 <= mx -> F64.signed sx (binary_round_aux F64.prec F64.emax sx mx ex lx).
Proof.
  intros Hm. unfold binary_round_aux.
  pose proof (shr_fexp_nonneg mx ex lx Hm) as H1.
  destruct (shr_fexp F64.prec F64.emax mx ex lx) as [mrs' e'].
  simpl in H1.
  pose proof (shr_fexp_nonneg _ e' loc_Exact
                (round_nearest_even_nonneg _ (loc_of_shr_record mrs') H1)) as H2.
  destruct (shr_fexp F64.prec F64.emax
              (round_nearest_even (shr_m mrs') (loc_of_shr_record mrs'))
              e' loc_Exact) as [mrs'' e''].
  simpl in H2.
  destruct (shr_m mrs'') as [|m|m]; simpl; [reflexivity| |lia].
  destruct (e'' <=? F64.emax - F64.prec); reflexivity.
Qed.

(** [price * 100] keeps the sign of a non-negative price. *)
Lemma mul_hundred_nonneg x :
  F64.nonneg x = true ->
  F64.zero_or_positive (F64.mul x (S754_finite false 7036874417766400 (-46))).
Proof.
  destruct x as [s|s| |s m e]; simpl; try discriminate; try tauto.
  - destruct s; [discriminate|reflexivity].
  - destruct s; [discriminate|]. intros _.
    pose proof (binary_round_aux_signed false
                  (Z.pos (m * 7036874417766400)) (e + -46) loc_Exact
                  ltac:(lia)) as H.
    unfold F64.mul, SFmul. simpl xorb.
    destruct (binary_round_aux _ _ _ _ _ _); simpl in *; auto.
Qed.

Lemma ceil_nonneg x n :
  F64.zero_or_positive x -> F64.ceil x = inr n -> 0 <= n.
Proof.
  destruct x as [s|s| |s m e]; simpl; try discriminate.
  - intros _ [= <-]. lia.
  - intros -> H.
    destruct (0 <=? e) eqn:E; injection H as <-.
    + apply Z.mul_nonneg_nonneg; [lia|]. apply Z.pow_nonneg. lia.
    + assert ((- Z.pos m) / (2 ^ (- e)) <= 0); [|simpl in *; lia].
      apply Z.div_le_upper_bound; [|lia].
      apply Z.pow_pos_nonneg; lia.
Qed.

Lemma div_round_signed n :
  0 <= n -> F64.signed false (F64.div_round n 100).
Proof.
  intros Hn. unfold F64.div_round.
  destruct (Z.eqb_spec n 0) as [->|Hne]; [reflexivity|].
  replace (n <? 0) with false by (symmetry; apply Z.ltb_ge; lia).
  change (xorb false (100 <? 0)) with false.
  unfold SFdiv_core_binary.
  set (e' := Z.min _ _).
  set (m' := match _ - e' with Z0 => _ | Z.pos _ => _ | Z.neg _ => _ end).
  assert (Hm' : 0 <= m').
  { subst m'. destruct (0 - 0 - e'); try lia.
    apply Z.shiftl_nonneg. lia. }
  pose proof (Z.div_pos m' (Z.abs 100) Hm' ltac:(reflexivity)) as Hq.
  unfold Z.div in Hq.
  destruct (Z.div_eucl m' (Z.abs 100)) as [q r]. simpl in Hq.
  now apply binary_round_aux_signed.
Qed.

(** Rounding a non-negative price up to the cent gives a non-negative
    price. *)
Lemma ceil_cents_nonneg x p :
  F64.nonneg x = true -> F64.ceil_cents x = inr p -> F64.nonneg p = true.
Proof.
  intros Hx. unfold F64.ceil_cents. rewrite mul_int_hundred. unfold bind.
  destruct (F64.ceil (F64.mul x (S754_finite false 7036874417766400 (-46))))
    as [e|n] eqn:Hc; [discriminate|].
  pose proof (ceil_nonneg _ _ (mul_hundred_nonneg x Hx) Hc) as Hn.
  unfold F64.int_truediv. simpl.
  pose proof (div_round_signed n Hn) as Hs.
  destruct (F64.div_round n 100) as [s|s| |s m e]; simpl in Hs; subst;
    try discriminate; try tauto; intros [= <-]; reflexivity.
Qed.

End F64Facts.

(** ** Entity *)

Module BookFacts.

Lemma init_inv title author price stock b :
  Book.__init__ title author price stock = inr b ->
  Book.title b = PyStr.strip title
  /\ Book.author b = PyStr.strip author
  /\ F64.ceil_cents price = inr (Book.price b)
  /\ Book.stock b = Z.max 0 stock.
Proof.
  unfold Book.__init__, bind.
  destruct (F64.ceil_cents price) as [e|p]; [discriminate|].
  intros [= <-]. repeat split.
Qed.

Lemma init_returns title author price stock :
  returns (Book.__init__ title author price stock)
  = returns (F64.ceil_cents price).
Proof.
  unfold Book.__init__, bind.
  now destruct (F64.ceil_cents price).
Qed.

Lemma dune_init :
  Book.__init__ "Dune" "Herbert" (F64.decimal 21004 3) 3
  = inr (Book.mk "Dune" "Herbert" (F64.decimal 2101 2) 3).
Proof. vm_compute. reflexivity. Qed.

Lemma dune_value :
  Book.calculate_value (Book.mk "Dune" "Herbert" (F64.decimal 2101 2) 3)
  = inr (F64.decimal 6303 2).
Proof. vm_compute. reflexivity. Qed.

(** C7. Every entity has [stock >= 0] and [price >= 0], and every operation
    keeps it so when the prices passed in are non-negative. Creation takes
    [max(0, stock)] and whether it succeeds does not depend on the stock
    passed in; [update_stock] refuses a change that would make the stock
    negative and leaves the entity as it was, and otherwise commits the sum;
    creation and [update_price] round a non-negative price up to a
    non-negative price. *)
Theorem C7_entity_invariant :
  (forall title author price stock,
     returns (Book.__init__ title author price stock)
     = returns (F64.ceil_cents price)
     /\ forall b,
         F64.nonneg price = true ->
         Book.__init__ title author price stock = inr b ->
         Book.invariant b /\ Book.stock b = Z.max 0 stock)
  /\ (forall b quantity,
        Book.invariant b ->
        Book.invariant (fst (Book.update_stock b quantity))
        /\ (Book.stock b + quantity < 0 ->
            Book.update_stock b quantity = (b, false))
        /\ (0 <= Book.stock b + quantity ->
            snd (Book.update_stock b quantity) = true
            /\ Book.stock (fst (Book.update_stock b quantity))
               = Book.stock b + quantity))
  /\ (forall b new_price b',
        Book.invariant b ->
        F64.nonneg new_price = true ->
        Book.update_price b new_price = inr b' ->
        Book.invariant b' /\ Book.stock b' = Book.stock b).
Proof.
  split; [|split].
  - intros title author price stock. split; [apply init_returns|].
    intros b Hp Hb.
    destruct (init_inv _ _ _ _ _ Hb) as (_ & _ & Hc & Hs).
    split; [split|]; [lia| |exact Hs].
    exact (F64Facts.ceil_cents_nonneg _ _ Hp Hc).
  - intros b quantity [Hs Hp]. unfold Book.update_stock.
    destruct (Z.ltb_spec (Book.stock b + quantity) 0) as [Hlt|Hge]; simpl.
    + repeat split; intros; auto; lia.
    + repeat split; intros; auto; lia.
  - intros b new_price b' [Hs Hp] Hn. unfold Book.update_price, bind.
    destruct (F64.ceil_cents new_price) as [e|p] eqn:Hc; [discriminate|].
    intros [= <-]. simpl. repeat split; auto.
    exact (F64Facts.ceil_cents_nonneg _ _ Hn Hc).
Qed.

Lemma C7_entity_invariant_witness :
  (exists b,
     Book.__init__ "Dune" "Herbert" (F64.decimal 21004 3) (-7) = inr b
     /\ Book.invariant b /\ Book.stock b = 0)
  /\ Book.update_stock (Book.mk "Dune" "Herbert" (F64.decimal 2101 2) 3) (-4)
     = (Book.mk "Dune" "Herbert" (F64.decimal 2101 2) 3, false)
  /\ (exists b',
        Book.update_price (Book.mk "Dune" "Herbert" (F64.decimal 2101 2) 3)
          (F64.decimal 9991 3) = inr b'
        /\ Book.invariant b').
Proof.
  destruct C7_entity_invariant as (Hcreate & Hadjust & Hprice).
  split; [|split].
  - eexists. split; [vm_compute; reflexivity|].
    apply (proj2 (Hcreate "Dune" "Herbert" (F64.decimal 21004 3) (-7)));
      vm_compute; reflexivity.
  - apply (Hadjust (Book.mk "Dune" "Herbert" (F64.decimal 2101 2) 3) (-4)).
    + split; [simpl; lia|vm_compute; reflexivity].
    + simpl. lia.
  - eexists. split; [vm_compute; reflexivity|].
    apply (Hprice (Book.mk "Dune" "Herbert" (F64.decimal 2101 2) 3)
             (F64.decimal 9991 3)).
    + split; [simpl; lia|vm_compute; reflexivity].
    + vm_compute; reflexivity.
    + vm_compute; reflexivity.
Defined.

End BookFacts.

(** ** Repository *)

Module InventoryFacts.

Import BookstoreInventory.
Import Scenario.

(** C4. [update_stock] returns [False] and leaves the repository as it was
    when the key is absent and when the stock would become negative;
    otherwise it sets the stock of that entity to [stock + delta], touches no
    other entity and appends the single entry [STOCK_UPDATE] holding
    [old_stock], [new_stock], [change] and [reason]. *)
Theorem C4_update_stock now self title delta reason :
  (get_book_by_title self title = None ->
   update_stock now self title delta reason = (self, false))
  /\ (forall book,
        get_book_by_title self title = Some book ->
        Book.stock book + delta < 0 ->
        update_stock now self title delta reason = (self, false))
  /\ (forall book,
        get_book_by_title self title = Some book ->
        0 <= Book.stock book + delta ->
        exists self',
          update_stock now self title delta reason = (self', true)
          /\ get_book_by_title self' title
             = Some (Book.mk (Book.title book) (Book.author book)
                       (Book.price book) (Book.stock book + delta))
          /\ (forall other, title <> other ->
              get_book_by_title self' other = get_book_by_title self other)
          /\ PyDict.keys (books self') = PyDict.keys (books self)
          /\ transaction_log self'
             = (transaction_log self
                ++ [stock_update_entry now title (Book.stock book)
                      (Book.stock book + delta) delta reason])%list).
Proof.
  unfold update_stock. split; [|split].
  - now intros ->.
  - intros book -> Hneg. unfold Book.update_stock.
    destruct (Z.ltb_spec (Book.stock book + delta) 0); [reflexivity|lia].
  - intros book Hget Hok. rewrite Hget. unfold Book.update_stock.
    destruct (Z.ltb_spec (Book.stock book + delta) 0); [lia|].
    eexists. split; [reflexivity|].
    unfold get_book_by_title in *. simpl.
    split; [apply PyDictFacts.get_set_eq|].
    split; [intros other Hne; now apply PyDictFacts.get_set_ne|].
    split; [|reflexivity].
    apply PyDictFacts.keys_set_mem. unfold PyDict.mem. now rewrite Hget.
Qed.

Lemma C4_update_stock_witness :
  update_stock "t1" empty_shop "Dune" 2 "restock" = (empty_shop, false)
  /\ update_stock "t1" dune_shop "Dune" (-5) "oversell" = (dune_shop, false)
  /\ exists self',
       update_stock "t1" dune_shop "Dune" (-2) "sale" = (self', true)
       /\ transaction_log self'
          = [stock_update_entry "t1" "Dune" 3 1 (-2) "sale"].
Proof.
  split; [|split].
  - apply (proj1 (C4_update_stock "t1" empty_shop "Dune" 2 "restock")).
    reflexivity.
  - apply (proj1 (proj2 (C4_update_stock "t1" dune_shop "Dune" (-5) "oversell"))
             dune); [reflexivity|simpl; lia].
  - destruct (proj2 (proj2 (C4_update_stock "t1" dune_shop "Dune" (-2) "sale"))
                dune) as (self' & Hrun & _ & _ & _ & Hlog);
      [reflexivity|simpl; lia|].
    exists self'. split; [exact Hrun|exact Hlog].
Defined.




(** C6. Adding Dune by Herbert at 21.004 with three units stores the price
    21.01, and the value of the stored entity is 63.03. *)
Theorem C6_dune_price_and_value now self :
  PyDict.mem "Dune" (books self) = false ->
  exists self' book,
    add_book now self "Dune" "Herbert" (F64.decimal 21004 3) 3
    = inr (self', "Dune")
    /\ get_book_by_title self' "Dune" = Some book
    /\ Book.price book = F64.decimal 2101 2
    /\ Book.stock book = 3
    /\ Book.calculate_value book = inr (F64.decimal 6303 2).
Proof.
  intros Hfresh. unfold add_book, bind.
  rewrite BookFacts.dune_init. cbn [Book.title Book.author Book.price].
  rewrite Hfresh.
  eexists. exists dune. split; [reflexivity|].
  unfold get_book_by_title. cbn [books with_books log_transaction
    with_transaction_log].
  split; [apply PyDictFacts.get_set_eq|].
  split; [reflexivity|]. split; [reflexivity|].
  apply BookFacts.dune_value.
Qed.

Lemma C6_dune_price_and_value_witness :
  exists self' book,
    add_book "t1" empty_shop "Dune" "Herbert" (F64.decimal 21004 3) 3
    = inr (self', "Dune")
    /\ get_book_by_title self' "Dune" = Some book
    /\ Book.price book = F64.decimal 2101 2
    /\ Book.stock book = 3
    /\ Book.calculate_value book = inr (F64.decimal 6303 2).
Proof. apply (C6_dune_price_and_value "t1" empty_shop). reflexivity. Defined.

(** C9. [remove_book] on an absent key returns [False] and changes nothing;
    on a book that still has stock, without confirmation, it returns [False]
    and changes nothing; with a confirmation, or when the stock is zero, it
    appends the single entry [REMOVE_BOOK] built from the book while it is
    still stored, holding [title], [author] and [final_stock], and then
    deletes the book. *)
Theorem C9_remove_book now answer self title :
  (get_book_by_title self title = None ->
   remove_book now answer self title = inr (self, false))
  /\ (forall book,
        get_book_by_title self title = Some book ->
        (0 < Book.stock book -> confirmed answer = false ->
         remove_book now answer self title = inr (self, false))
        /\ (confirmed answer = true \/ Book.stock book = 0 ->
            exists self',
              remove_book now answer self title = inr (self', true)
              /\ get_book_by_title self' title = None
              /\ (forall other, title <> other ->
                  get_book_by_title self' other
                  = get_book_by_title self other)
              /\ books self' = PyDict.remove title (books self)
              /\ transaction_log self'
                 = (transaction_log self
                    ++ [remove_entry now title book])%list)).
Proof.
  unfold remove_book. split.
  - now intros ->.
  - intros book Hget. rewrite Hget. split.
    + intros Hpos Hno. rewrite Hno.
      destruct (Z.ltb_spec 0 (Book.stock book)); [reflexivity|lia].
    + intros Hgo.
      assert (Hguard : (0 <? Book.stock book) && negb (confirmed answer)
                       = false).
      { destruct Hgo as [->| ->]; [apply andb_false_r|reflexivity]. }
      rewrite Hguard. unfold bind, log_transaction, with_transaction_log.
      cbn [books]. unfold get_book_by_title in Hget.
      rewrite (PyDictFacts.del_present _ _ _ Hget).
      eexists. split; [reflexivity|].
      unfold get_book_by_title. simpl.
      split; [apply PyDictFacts.get_remove_eq|].
      split; [intros other Hne; now apply PyDictFacts.get_remove_ne|].
      split; reflexivity.
Qed.

Lemma C9_remove_book_witness :
  remove_book "t1" "y" empty_shop "Dune" = inr (empty_shop, false)
  /\ remove_book "t1" "n" dune_shop "Dune" = inr (dune_shop, false)
  /\ exists self',
       remove_book "t1" "Y" dune_shop "Dune" = inr (self', true)
       /\ books self' = []
       /\ transaction_log self' = [remove_entry "t1" "Dune" dune].
Proof.
  split; [|split].
  - apply (proj1 (C9_remove_book "t1" "y" empty_shop "Dune")). reflexivity.
  - apply (proj1 (proj2 (C9_remove_book "t1" "n" dune_shop "Dune") dune
                    ltac:(reflexivity)));
      [simpl; lia|reflexivity].
  - destruct (proj2 (proj2 (C9_remove_book "t1" "Y" dune_shop "Dune") dune
                       ltac:(reflexivity)))
      as (self' & Hrun & _ & _ & Hbooks & Hlog);
      [left; reflexivity|].
    exists self'. split; [exact Hrun|]. split; [exact Hbooks|exact Hlog].
Defined.

Lemma lower_char_space c : PyStr.is_space c = true -> PyStr.lower_char c = c.
Proof.
  destruct c as [[] [] [] [] [] [] [] []]; vm_compute;
    intros H; try reflexivity; discriminate H.
Qed.

Lemma lstrip_all_space s : PyStr.all_space s = true -> PyStr.lstrip s = "".
Proof.
  induction s as [|c s IH]; simpl; [reflexivity|].
  intros [Hc Hs]%andb_prop. rewrite Hc. auto.
Qed.

Lemma all_space_lower s :
  PyStr.all_space s = true -> PyStr.all_space (PyStr.lower s) = true.
Proof.
  induction s as [|c s IH]; simpl; [reflexivity|].
  intros [Hc Hs]%andb_prop. rewrite (lower_char_space c Hc), Hc. simpl. auto.
Qed.

Lemma blank_query s :
  PyStr.all_space s = true -> PyStr.strip (PyStr.lower s) = "".
Proof.
  intros H. unfold PyStr.strip.
  now rewrite (lstrip_all_space _ (all_space_lower _ H)).
Qed.

Lemma contains_empty hay : PyStr.contains "" hay = true.
Proof. destruct hay; reflexivity. Qed.

(** C10. A query that is empty or made of whitespace only finds every entity
    of the repository; in general an entity is found exactly when the
    lowercased, stripped query occurs in its lowercased title or in its
    lowercased author. *)
Theorem C10_find_book self query :
  (PyStr.all_space query = true ->
   find_book self query = PyDict.values (books self))
  /\ (forall book,
        In book (find_book self query)
        <-> In book (PyDict.values (books self))
            /\ (PyStr.contains (PyStr.strip (PyStr.lower query))
                               (PyStr.lower (Book.title book))
                || PyStr.contains (PyStr.strip (PyStr.lower query))
                                  (PyStr.lower (Book.author book))) = true).
Proof.
  unfold find_book. split.
  - intros Hblank. rewrite (blank_query _ Hblank).
    induction (PyDict.values (books self)) as [|b l IH]; [reflexivity|].
    simpl. unfold matches at 1. rewrite contains_empty. simpl.
    now rewrite IH.
  - intros book. rewrite List.filter_In. unfold matches.
    destruct (PyStr.contains _ (PyStr.lower (Book.title book)));
      destruct (PyStr.contains _ (PyStr.lower (Book.author book)));
      simpl; tauto.
Qed.

Lemma C10_find_book_witness :
  find_book dune_shop "  " = [dune]
  /\ (In dune (find_book dune_shop " HERB ")
      <-> In dune [dune]
          /\ (PyStr.contains "herb" "dune" || PyStr.contains "herb" "herbert")
             = true).
Proof.
  split.
  - apply (proj1 (C10_find_book dune_shop "  ")). reflexivity.
  - apply (proj2 (C10_find_book dune_shop " HERB ") dune).
Defined.

End InventoryFacts.

(** ** Persistence *)

Module PersistenceFacts.

Import BookstoreInventory.
Import Scenario.

Lemma backup_ne path : path <> backup_of path.
Proof.
  unfold backup_of. induction path as [|c path IH]; simpl.
  - discriminate.
  - intros [= H]. auto.
Qed.

(** A call of a method the class defines is the method itself. *)
Lemma call_method_defined {A} name (body : Py A) :
  hasattr name = true -> call_method name body = body.
Proof. unfold call_method. now intros ->. Qed.

(** The class has no attribute of the name [save_inventory] asks for. *)
Lemma no_total_method : hasattr "calculate_total_inventory_value" = false.
Proof. reflexivity. Qed.

Lemma build_data_raises now self :
  build_data now self = inl (AttributeError "calculate_total_inventory_value").
Proof. reflexivity. Qed.

(** What [save_inventory] leaves behind: the file that was at the path, if
    any, is now the backup, and nothing is at the path. *)
Lemma save_inventory_effect now self fs :
  save_inventory now self fs
  = (match fs !! json_file self with
     | Some f => <[backup_of (json_file self) := f]> (delete (json_file self) fs)
     | None => fs
     end, false).
Proof.
  unfold save_inventory. rewrite build_data_raises.
  unfold os_path_exists, os_rename, backup_of.
  now destruct (fs !! json_file self).
Qed.

Lemma save_inventory_primary now self fs :
  fst (save_inventory now self fs) !! json_file self = None.
Proof.
  rewrite save_inventory_effect. simpl.
  destruct (fs !! json_file self) eqn:E; [|exact E].
  rewrite lookup_insert_ne by (intros H; symmetry in H; exact (backup_ne _ H)).
  apply lookup_delete_eq.
Qed.

Lemma save_inventory_backup now self fs :
  fst (save_inventory now self fs) !! backup_of (json_file self)
  = match fs !! json_file self with
    | Some f => Some f
    | None => fs !! backup_of (json_file self)
    end.
Proof.
  rewrite save_inventory_effect. simpl.
  destruct (fs !! json_file self) eqn:E; [|reflexivity].
  apply lookup_insert_eq.
Qed.

(** C1, on the code. Building the document stops at the call of
    [calculate_total_inventory_value], a name the class does not define:
    [save_inventory] returns [False], and afterwards no file, hence no
    [total_inventory_value], is at the path. *)
Theorem C1_save_writes_no_total now self fs :
  build_data now self = inl (AttributeError "calculate_total_inventory_value")
  /\ snd (save_inventory now self fs) = false
  /\ fst (save_inventory now self fs) !! json_file self = None.
Proof.
  split; [apply build_data_raises|split].
  - now rewrite save_inventory_effect.
  - apply save_inventory_primary.
Qed.

(** C2, on the code. After two calls of [save_inventory] in a row there is no
    primary file; the backup is the file that was at the path before the
    first call (or the backup that was already there), not a document of
    either call. *)
Theorem C2_two_saves_leave_no_primary now1 now2 self fs :
  let fs1 := fst (save_inventory now1 self fs) in
  let fs2 := fst (save_inventory now2 self fs1) in
  snd (save_inventory now2 self fs1) = false
  /\ fs2 = fs1
  /\ fs2 !! json_file self = None
  /\ fs2 !! backup_of (json_file self)
     = match fs !! json_file self with
       | Some f => Some f
       | None => fs !! backup_of (json_file self)
       end.
Proof.
  intros fs1 fs2.
  assert (H1 : fs1 !! json_file self = None)
    by apply save_inventory_primary.
  assert (H2 : fs2 = fs1).
  { subst fs2. rewrite save_inventory_effect. simpl. now rewrite H1. }
  split; [now rewrite save_inventory_effect|].
  split; [exact H2|]. rewrite H2.
  split; [exact H1|]. apply save_inventory_backup.
Qed.

Lemma init_after_save now self fs :
  BookstoreInventory.__init__ (json_file self)
    (fst (save_inventory now self fs))
  = mk (json_file self) [] [].
Proof.
  unfold BookstoreInventory.__init__, load_inventory. cbn [json_file].
  now rewrite save_inventory_primary.
Qed.

(** C3, on the code. A repository opened on the path after [save_inventory]
    finds no file there and starts empty, whatever was saved: neither the
    entities nor the ledger come back. *)
Theorem C3_save_then_load_is_empty now self fs :
  let self' :=
    BookstoreInventory.__init__ (json_file self)
      (fst (save_inventory now self fs)) in
  books self' = [] /\ transaction_log self' = [].
Proof. intros self'. subst self'. now rewrite init_after_save. Qed.

(** The same on a repository with one book: the book is lost. *)
Lemma save_then_load_dune :
  books dune_shop = [("Dune", dune)]
  /\ books (BookstoreInventory.__init__ "books.json"
              (fst (save_inventory "t1" dune_shop ∅))) = [].
Proof.
  split; [reflexivity|].
  now rewrite (init_after_save "t1" dune_shop ∅).
Qed.

(** Writing a book out and reading it back rounds the price up once more:
    a stored 0.07 comes back as 0.08. *)
Lemma from_dict_to_dict_reprices :
  exists b b',
    Book.__init__ "x" "y" (F64.decimal 65 3) 1 = inr b
    /\ Book.price b = F64.decimal 7 2
    /\ Book.from_dict (Book.to_dict b) = inr b'
    /\ Book.price b' = F64.decimal 8 2.
Proof.
  exists (Book.mk "x" "y" (F64.decimal 7 2) 1).
  exists (Book.mk "x" "y" (F64.decimal 8 2) 1).
  vm_compute. repeat split.
Qed.

(** *** Loading *)

Lemma from_dict_missing_field data :
  missing_field data -> exists key, Book.from_dict data = inl (KeyError key).
Proof.
  unfold missing_field, Book.from_dict, getitem, bind.
  destruct data as [[t|] [a|] [p|] [s|]]; simpl; intros H; eauto;
    destruct H as [H|[H|[H|H]]]; discriminate H.
Qed.

(** The loop stops at the first book that cannot be rebuilt and keeps the
    books stored before it. *)
Lemma load_books_stops pre title bad post e :
  Book.from_dict bad = inl e ->
  forall acc loaded,
    load_books pre acc = (loaded, inr tt) ->
    load_books (pre ++ (title, bad) :: post)%list acc = (loaded, inl e).
Proof.
  intros Hbad. induction pre as [|[k d] pre IH]; intros acc loaded; simpl.
  - intros [= <-]. now rewrite Hbad.
  - destruct (Book.from_dict d) as [e'|b]; [discriminate|]. apply IH.
Qed.

(** What [load_inventory] does on a fresh repository, case by case. With no
    file at the path it returns [True] and the repository is empty. On a file
    that is there every exception is caught and it returns [False]: the
    repository is empty when the text is not JSON or not an object; when a
    book of the document lacks a key [from_dict] reads, the ledger is not
    loaded and the books that come before that one in the document have
    already been stored. *)
Lemma load_inventory_cases json_file fs :
  let r := load_inventory (mk json_file [] []) fs in
  BookstoreInventory.__init__ json_file fs = fst r
  /\ (fs !! json_file = None -> r = (mk json_file [] [], true))
  /\ (fs !! json_file = Some Garbage \/ fs !! json_file = Some NonObject ->
      r = (mk json_file [] [], false))
  /\ (forall d pre title bad post loaded,
        fs !! json_file = Some (Document d) ->
        doc_books d = Some (pre ++ (title, bad) :: post)%list ->
        load_books pre [] = (loaded, inr tt) ->
        missing_field bad ->
        r = (mk json_file loaded [], false)
        /\ (pre = [] -> loaded = [])).
Proof.
  intros r. subst r. unfold BookstoreInventory.__init__, load_inventory.
  cbn [BookstoreInventory.json_file books].
  split; [reflexivity|]. split; [|split].
  - now intros ->.
  - now intros [-> | ->].
  - intros d pre title bad post loaded -> Hbooks Hpre Hbad.
    destruct (from_dict_missing_field bad Hbad) as [key Hkey].
    unfold json_load, ret. cbv beta iota. rewrite Hbooks. simpl.
    rewrite (load_books_stops pre title bad post _ Hkey [] loaded Hpre).
    split; [reflexivity|].
    intros ->. simpl in Hpre. now injection Hpre as <-.
Qed.

Lemma half_good_load :
  load_inventory (mk "books.json" [] []) half_good_fs
  = (dune_shop, false).
Proof. vm_compute. reflexivity. Qed.

Lemma load_inventory_cases_witness :
  load_inventory (mk "books.json" [] []) ∅ = (empty_shop, true)
  /\ load_inventory (mk "books.json" [] []) {[ "books.json" := Garbage ]}
     = (empty_shop, false)
  /\ load_inventory (mk "books.json" [] []) half_good_fs
     = (dune_shop, false).
Proof.
  split; [|split].
  - apply (proj1 (proj2 (load_inventory_cases "books.json" ∅))). reflexivity.
  - apply (proj1 (proj2 (proj2
             (load_inventory_cases "books.json"
                {[ "books.json" := Garbage ]})))).
    left. reflexivity.
  - apply (proj2 (proj2 (proj2 (load_inventory_cases "books.json" half_good_fs)))
             half_good [("Dune", Book.to_dict dune)] "Emma"
             (mk_book_data (Some "Emma") None (Some (F64.decimal 5 0)) (Some 1))
             [] [("Dune", dune)]).
    + reflexivity.
    + reflexivity.
    + vm_compute. reflexivity.
    + right. left. reflexivity.
Defined.

(** A document with no [books] key is not an error for [load_inventory]:
    [data.get] supplies the empty dictionary, the call returns [True], no book
    is stored and the ledger of the document is installed. *)
Lemma load_inventory_without_books json_file fs d :
  fs !! json_file = Some (Document d) ->
  doc_books d = None ->
  load_inventory (mk json_file [] []) fs
  = (mk json_file [] (default [] (doc_transaction_log d)), true).
Proof.
  intros Hfs Hbooks. unfold load_inventory.
  cbn [BookstoreInventory.json_file books]. rewrite Hfs.
  unfold json_load, ret. cbv beta iota. now rewrite Hbooks.
Qed.

(** C8, on the code. The file is there and its second book lacks a required
    key: the error is caught and [load_inventory] returns [False], but the
    repository is not empty afterwards, it holds the first book of the
    document. *)
Theorem C8_load_failure_keeps_books :
  half_good_fs !! "books.json" = Some (Document half_good)
  /\ snd (load_inventory (mk "books.json" [] []) half_good_fs) = false
  /\ books (BookstoreInventory.__init__ "books.json" half_good_fs)
     = [("Dune", dune)]
  /\ books (BookstoreInventory.__init__ "books.json" half_good_fs) <> [].
Proof.
  unfold BookstoreInventory.__init__. rewrite half_good_load.
  split; [vm_compute; reflexivity|].
  split; [reflexivity|]. split; [reflexivity|discriminate].
Qed.

End PersistenceFacts.

(** * Further properties of the code *)

(** ** Stripping and searching *)

Module StrFacts.

Import Conditions.

Lemma lstrip_head_ok s : head_ok (PyStr.lstrip s).
Proof.
  induction s as [|c s IH]; simpl; [exact I|].
  destruct (PyStr.is_space c) eqn:E; [exact IH|exact E].
Qed.

Lemma lstrip_of_head_ok s : head_ok s -> PyStr.lstrip s = s.
Proof. destruct s as [|c s]; simpl; [reflexivity|]. now intros ->. Qed.

Lemma rstrip_cons_nonspace c s :
  PyStr.is_space c = false ->
  PyStr.rstrip (String c s) = String c (PyStr.rstrip s).
Proof. intros H. simpl. destruct (PyStr.rstrip s); now rewrite ?H. Qed.

Lemma rstrip_head_ok s : head_ok s -> head_ok (PyStr.rstrip s).
Proof.
  destruct s as [|c s]; [intros _; exact I|]. intros H.
  rewrite (rstrip_cons_nonspace _ _ H). exact H.
Qed.

Lemma rstrip_idem s : PyStr.rstrip (PyStr.rstrip s) = PyStr.rstrip s.
Proof.
  induction s as [|c s IH]; [reflexivity|]. simpl.
  destruct (PyStr.rstrip s) as [|a r] eqn:E.
  - destruct (PyStr.is_space c) eqn:Hc; [reflexivity|]. simpl. now rewrite Hc.
  - change (PyStr.rstrip (String c (String a r)))
      with (match PyStr.rstrip (String a r) with
            | EmptyString =>
                if PyStr.is_space c then EmptyString else String c EmptyString
            | r' => String c r'
            end).
    now rewrite IH.
Qed.

Lemma strip_idem s : PyStr.strip (PyStr.strip s) = PyStr.strip s.
Proof.
  unfold PyStr.strip.
  rewrite (lstrip_of_head_ok _ (rstrip_head_ok _ (lstrip_head_ok s))).
  apply rstrip_idem.
Qed.

Lemma append_nil b : (EmptyString ++ b)%string = b.
Proof. reflexivity. Qed.

Lemma append_cons c a b : (String c a ++ b)%string = String c (a ++ b).
Proof. reflexivity. Qed.

Lemma lstrip_suffix s : exists a, s = (a ++ PyStr.lstrip s)%string.
Proof.
  induction s as [|c s [a IH]]; simpl; [now exists EmptyString|].
  destruct (PyStr.is_space c).
  - exists (String c a). rewrite append_cons. now rewrite <- IH.
  - now exists EmptyString.
Qed.

Lemma rstrip_prefix s : exists b, s = (PyStr.rstrip s ++ b)%string.
Proof.
  induction s as [|c s [b IH]]; simpl; [now exists EmptyString|].
  destruct (PyStr.rstrip s) as [|a r] eqn:E.
  - destruct (PyStr.is_space c).
    + now exists (String c s).
    + exists b. rewrite append_cons. now rewrite <- IH.
  - exists b. rewrite append_cons. now rewrite <- IH.
Qed.

Lemma prefix_app n b : String.prefix n (n ++ b) = true.
Proof.
  induction n as [|c n IH]; [now rewrite append_nil; destruct b|].
  rewrite append_cons. simpl.
  destruct (Ascii.ascii_dec c c); [exact IH|congruence].
Qed.

Lemma contains_of_prefix n h : String.prefix n h = true -> PyStr.contains n h = true.
Proof. intros H. destruct h; cbn [PyStr.contains]; now rewrite H. Qed.

Lemma contains_app a n b : PyStr.contains n (a ++ n ++ b) = true.
Proof.
  induction a as [|c a IH].
  - rewrite append_nil. apply contains_of_prefix, prefix_app.
  - rewrite append_cons. cbn [PyStr.contains].
    destruct (String.prefix n (String c (a ++ n ++ b))); [reflexivity|exact IH].
Qed.

(** A stripped string occurs in the string it was stripped from. *)
Lemma contains_strip s : PyStr.contains (PyStr.strip s) s = true.
Proof.
  unfold PyStr.strip.
  destruct (lstrip_suffix s) as [a Ha].
  destruct (rstrip_prefix (PyStr.lstrip s)) as [b Hb].
  rewrite Ha at 2. rewrite Hb at 2. apply contains_app.
Qed.

End StrFacts.

(** ** More on dictionaries *)

Module PyDictMore.

Section Facts.
Context {V : Type}.
Implicit Types (d : PyDict.t V) (k : string) (v : V).

Lemma mem_in_keys d k : PyDict.mem k d = true <-> In k (PyDict.keys d).
Proof.
  unfold PyDict.mem, PyDict.keys.
  induction d as [|[k0 v0] d IH]; simpl; [split; [discriminate|tauto]|].
  destruct (String.eqb_spec k k0) as [->|Hne]; [tauto|].
  rewrite IH. split; [tauto|]. intros [H|H]; [congruence|exact H].
Qed.

Lemma set_overwrite d k v v' :
  PyDict.set k v (PyDict.set k v' d) = PyDict.set k v d.
Proof.
  induction d as [|[k0 v0] d IH]; simpl.
  - now rewrite String.eqb_refl.
  - destruct (String.eqb k k0) eqn:E; simpl; rewrite E; [reflexivity|].
    now rewrite IH.
Qed.

Lemma set_same d k v : PyDict.get k d = Some v -> PyDict.set k v d = d.
Proof.
  induction d as [|[k0 v0] d IH]; simpl; [discriminate|].
  destruct (String.eqb k k0) eqn:E.
  - now intros [= ->].
  - intros H. now rewrite IH.
Qed.

Lemma remove_absent d k : PyDict.mem k d = false -> PyDict.remove k d = d.
Proof.
  unfold PyDict.mem.
  induction d as [|[k0 v0] d IH]; simpl; [reflexivity|].
  destruct (String.eqb k k0) eqn:E; [discriminate|].
  intros H. now rewrite IH.
Qed.

Lemma remove_last d k v :
  PyDict.mem k d = false -> PyDict.remove k (d ++ [(k, v)])%list = d.
Proof.
  unfold PyDict.mem.
  induction d as [|[k0 v0] d IH]; simpl.
  - now rewrite String.eqb_refl.
  - destruct (String.eqb k k0) eqn:E; [discriminate|].
    intros H. now rewrite IH.
Qed.

Lemma Forall_set (P : string * V -> Prop) d k v :
  Forall P d -> P (k, v) -> Forall P (PyDict.set k v d).
Proof.
  intros Hd Hk. induction Hd as [|[k0 v0] d H0 Hd IH]; simpl.
  - now constructor.
  - destruct (String.eqb_spec k k0) as [->|Hne]; constructor; auto.
Qed.

Lemma Forall_remove (P : string * V -> Prop) d k :
  Forall P d -> Forall P (PyDict.remove k d).
Proof.
  intros Hd. induction Hd as [|[k0 v0] d H0 Hd IH]; simpl; [constructor|].
  destruct (String.eqb k k0); [exact IH|now constructor].
Qed.

Lemma in_keys_remove d k k' :
  In k' (PyDict.keys (PyDict.remove k d)) -> In k' (PyDict.keys d).
Proof.
  unfold PyDict.keys.
  induction d as [|[k0 v0] d IH]; simpl; [tauto|].
  destruct (String.eqb k k0); simpl; tauto.
Qed.

Lemma NoDup_keys_remove d k :
  NoDup (PyDict.keys d) -> NoDup (PyDict.keys (PyDict.remove k d)).
Proof.
  induction d as [|[k0 v0] d IH]; simpl; [trivial|].
  intros [Hnin Hd]%NoDup_cons_iff.
  destruct (String.eqb k k0); [auto|].
  simpl. apply NoDup_cons_iff. split; [|auto].
  intros H. apply Hnin. exact (in_keys_remove _ _ _ H).
Qed.

Lemma in_keys_set d k v k' :
  In k' (PyDict.keys (PyDict.set k v d)) -> k' = k \/ In k' (PyDict.keys d).
Proof.
  unfold PyDict.keys.
  induction d as [|[k0 v0] d IH]; simpl; [intuition congruence|].
  destruct (String.eqb k k0); simpl; tauto.
Qed.

Lemma NoDup_keys_set d k v :
  NoDup (PyDict.keys d) -> NoDup (PyDict.keys (PyDict.set k v d)).
Proof.
  induction d as [|[k0 v0] d IH]; simpl.
  - intros _. apply NoDup_cons_iff. split; [simpl; tauto|constructor].
  - intros [Hnin Hd]%NoDup_cons_iff.
    destruct (String.eqb_spec k k0) as [->|Hne]; simpl.
    + apply NoDup_cons_iff. now split.
    + apply NoDup_cons_iff. split; [|auto].
      intros H. destruct (in_keys_set _ _ _ _ H); [congruence|auto].
Qed.

End Facts.

End PyDictMore.

(** ** More on rounding *)

Module F64More.

Import Conditions.

Lemma div_round_100_signed n :
  n <> 0 -> F64.signed (n <? 0) (F64.div_round n 100).
Proof.
  intros Hne. unfold F64.div_round.
  destruct (Z.eqb_spec n 0) as [->|_]; [congruence|].
  change (xorb (n <? 0) (100 <? 0)) with (xorb (n <? 0) false).
  rewrite xorb_false_r.
  unfold SFdiv_core_binary.
  set (e' := Z.min _ _).
  set (m' := match _ - e' with Z0 => _ | Z.pos _ => _ | Z.neg _ => _ end).
  assert (Hm' : 0 <= m').
  { subst m'. destruct (0 - 0 - e'); try lia.
    apply Z.shiftl_nonneg. lia. }
  pose proof (Z.div_pos m' (Z.abs 100) Hm' ltac:(reflexivity)) as Hq.
  unfold Z.div in Hq.
  destruct (Z.div_eucl m' (Z.abs 100)) as [q r]. simpl in Hq.
  now apply F64Facts.binary_round_aux_signed.
Qed.

(** A price rounded up to the cent is a zero or a finite float. *)
Lemma ceil_cents_finite x p : F64.ceil_cents x = inr p -> finite p.
Proof.
  unfold F64.ceil_cents. rewrite F64Facts.mul_int_hundred. unfold bind.
  destruct (F64.ceil _) as [e|n]; [discriminate|].
  unfold F64.int_truediv. simpl.
  destruct (Z.eq_dec n 0) as [->|Hne].
  - intros [= <-]. exact I.
  - pose proof (div_round_100_signed n Hne) as Hs.
    destruct (F64.div_round n 100) as [s|s| |s m e]; simpl in Hs;
      try discriminate; try tauto; intros [= <-]; exact I.
Qed.

Lemma nonneg_zero_or_positive x :
  F64.nonneg x = true <-> F64.zero_or_positive x.
Proof.
  destruct x as [[]|[]| |[] m e]; cbv; split; intros H;
    try exact I; try reflexivity; try discriminate H; try contradiction.
Qed.

Lemma of_int_nonneg z y :
  0 <= z -> F64.of_int z = inr y -> F64.zero_or_positive y.
Proof.
  intros Hz. unfold F64.of_int, binary_normalize.
  destruct z as [|m|m]; [intros [= <-]; exact I| |lia].
  unfold binary_round.
  destruct (shl_align m 0 _) as [mz ez].
  pose proof (F64Facts.binary_round_aux_signed false (Z.pos mz) ez loc_Exact
                ltac:(lia)) as Hs.
  destruct (binary_round_aux _ _ _ _ _ _) as [s|s| |s m' e]; simpl in Hs;
    try discriminate; try tauto; intros [= <-]; simpl; auto.
Qed.

(** A product of two floats that are not negative is not negative, unless it
    is the NaN of zero times infinity. *)
Lemma mul_nonneg x y :
  F64.zero_or_positive x -> F64.zero_or_positive y ->
  F64.mul x y = S754_nan \/ F64.zero_or_positive (F64.mul x y).
Proof.
  destruct x as [sx|sx| |sx mx ex], y as [sy|sy| |sy my ey]; simpl;
    intros Hx Hy; subst; try tauto; try (right; exact I); try (right; reflexivity).
  right.
  pose proof (F64Facts.binary_round_aux_signed false
                (Z.pos (mx * my)) (ex + ey) loc_Exact ltac:(lia)) as H.
  unfold F64.mul, SFmul. simpl xorb.
  destruct (binary_round_aux _ _ _ _ _ _); simpl in *; auto.
Qed.

Lemma calculate_value_of_zero_stock b :
  finite (Book.price b) -> Book.stock b = 0 ->
  Book.calculate_value b = inr F64.zero.
Proof.
  intros Hp Hs. unfold Book.calculate_value. rewrite Hs.
  destruct (Book.price b) as [s|s| |s m e]; simpl in Hp; try tauto;
    vm_compute; reflexivity.
Qed.

End F64More.

(** ** More on the entity *)

Module EntityExtras.

Import Conditions.

(** X1. Two stock changes that both succeed amount to one change by their sum,
    and a change that succeeded on a book with no negative stock is undone
    by the opposite change. *)
Theorem update_stock_compose :
  (forall b q1 q2 b1 b2,
     Book.update_stock b q1 = (b1, true) ->
     Book.update_stock b1 q2 = (b2, true) ->
     Book.update_stock b (q1 + q2) = (b2, true))
  /\ (forall b q b',
        0 <= Book.stock b ->
        Book.update_stock b q = (b', true) ->
        Book.update_stock b' (- q) = (b, true)).
Proof.
  unfold Book.update_stock. split.
  - intros b q1 q2 b1 b2.
    destruct (Z.ltb_spec (Book.stock b + q1) 0); [discriminate|].
    intros [= <-]. simpl.
    destruct (Z.ltb_spec (Book.stock b + q1 + q2) 0); [discriminate|].
    intros [= <-].
    destruct (Z.ltb_spec (Book.stock b + (q1 + q2)) 0); [lia|].
    now rewrite Z.add_assoc.
  - intros [t a p s] q b' Hs. simpl in *.
    destruct (Z.ltb_spec (s + q) 0); [discriminate|].
    intros [= <-]. simpl.
    destruct (Z.ltb_spec (s + q + - q) 0); [lia|].
    do 2 f_equal. lia.
Qed.

Lemma update_stock_compose_witness :
  Book.update_stock Scenario.dune (-2 + 4) = (with_stock Scenario.dune 5, true)
  /\ Book.update_stock (with_stock Scenario.dune 1) (- -2)
     = (Scenario.dune, true).
Proof.
  split.
  - apply (proj1 update_stock_compose Scenario.dune (-2) 4
             (with_stock Scenario.dune 1)); reflexivity.
  - apply (proj2 update_stock_compose Scenario.dune (-2)).
    + simpl. lia.
    + reflexivity.
Defined.

(** X2. Taking out the whole stock of a book succeeds and leaves it out of stock
    and not low on stock; taking out one unit more is refused. *)
Theorem update_stock_boundary b threshold :
  0 <= Book.stock b ->
  Book.update_stock b (- Book.stock b) = (with_stock b 0, true)
  /\ Book.is_in_stock (with_stock b 0) = false
  /\ Book.is_low_stock (with_stock b 0) threshold = false
  /\ Book.update_stock b (- (Book.stock b + 1)) = (b, false).
Proof.
  intros Hs. unfold Book.update_stock, with_stock.
  destruct (Z.ltb_spec (Book.stock b + - Book.stock b) 0); [lia|].
  destruct (Z.ltb_spec (Book.stock b + - (Book.stock b + 1)) 0); [|lia].
  rewrite Z.add_opp_diag_r. repeat split.
Qed.

Lemma update_stock_boundary_witness :
  Book.update_stock Scenario.dune (-3) = (with_stock Scenario.dune 0, true)
  /\ Book.update_stock Scenario.dune (-4) = (Scenario.dune, false).
Proof.
  destruct (update_stock_boundary Scenario.dune 5 ltac:(simpl; lia))
    as (H1 & _ & _ & H2).
  split; [exact H1|exact H2].
Defined.

Lemma init_shape title author price stock b :
  Book.__init__ title author price stock = inr b ->
  PyStr.strip (Book.title b) = Book.title b
  /\ PyStr.strip (Book.author b) = Book.author b
  /\ 0 <= Book.stock b
  /\ finite (Book.price b).
Proof.
  intros H.
  destruct (BookFacts.init_inv _ _ _ _ _ H) as (Ht & Ha & Hp & Hs).
  rewrite Ht, Ha, Hs, !StrFacts.strip_idem.
  repeat split; [lia|]. exact (F64More.ceil_cents_finite _ _ Hp).
Qed.

(** X3. Writing a book built by the constructor out with [to_dict] and reading
    it back with [from_dict] keeps title, author and stock and rounds the
    price up to the cent once more; the book comes back unchanged exactly
    when that rounding leaves its price alone. *)
Theorem from_dict_to_dict title author price stock b :
  Book.__init__ title author price stock = inr b ->
  Book.from_dict (Book.to_dict b)
  = (let* p := F64.ceil_cents (Book.price b) in
     ret (Book.mk (Book.title b) (Book.author b) p (Book.stock b)))
  /\ (F64.ceil_cents (Book.price b) = inr (Book.price b) <->
      Book.from_dict (Book.to_dict b) = inr b).
Proof.
  intros H. destruct (init_shape _ _ _ _ _ H) as (Ht & Ha & Hs & _).
  assert (E : Book.from_dict (Book.to_dict b)
              = (let* p := F64.ceil_cents (Book.price b) in
                 ret (Book.mk (Book.title b) (Book.author b) p (Book.stock b)))).
  { unfold Book.from_dict, Book.to_dict, getitem. simpl.
    unfold Book.__init__. rewrite Ht, Ha, Z.max_r by exact Hs. reflexivity. }
  split; [exact E|]. rewrite E. unfold bind, ret.
  destruct b as [t a p s]. simpl.
  destruct (F64.ceil_cents p) as [e|p']; split; intros H'; try discriminate H';
    injection H' as H'; congruence.
Qed.

Lemma from_dict_to_dict_witness :
  Book.from_dict (Book.to_dict Scenario.dune) = inr Scenario.dune.
Proof.
  apply (proj2 (from_dict_to_dict "Dune" "Herbert" (F64.decimal 21004 3) 3
                  Scenario.dune ltac:(vm_compute; reflexivity))).
  vm_compute. reflexivity.
Defined.

(** X4. A book built with a stock of zero or less is out of stock, is never low
    on stock, and is worth exactly zero. *)
Theorem out_of_stock_value title author price stock b threshold :
  Book.__init__ title author price stock = inr b ->
  stock <= 0 ->
  Book.stock b = 0
  /\ Book.is_in_stock b = false
  /\ Book.is_low_stock b threshold = false
  /\ Book.calculate_value b = inr F64.zero.
Proof.
  intros H Hle.
  destruct (BookFacts.init_inv _ _ _ _ _ H) as (_ & _ & _ & Hs).
  destruct (init_shape _ _ _ _ _ H) as (_ & _ & _ & Hp).
  assert (H0 : Book.stock b = 0) by lia.
  unfold Book.is_in_stock, Book.is_low_stock. rewrite H0.
  repeat split. now apply F64More.calculate_value_of_zero_stock.
Qed.

Lemma out_of_stock_value_witness :
  exists b,
    Book.__init__ "Emma" "Austen" (F64.decimal 5 0) (-2) = inr b
    /\ Book.stock b = 0
    /\ Book.calculate_value b = inr F64.zero.
Proof.
  eexists. split; [vm_compute; reflexivity|].
  destruct (out_of_stock_value "Emma" "Austen" (F64.decimal 5 0) (-2) _ 5
              ltac:(vm_compute; reflexivity) ltac:(lia)) as (H1 & _ & _ & H2).
  split; [exact H1|exact H2].
Defined.

(** X5. The value of a book with no negative stock and no negative price is
    never negative. *)
Theorem calculate_value_sign b v :
  Book.invariant b ->
  Book.calculate_value b = inr v ->
  F64.nonneg v = true.
Proof.
  intros [Hs Hp]. unfold Book.calculate_value, F64.mul_int at 1, bind.
  destruct (F64.of_int (Book.stock b)) as [e|y] eqn:Hy; [discriminate|].
  unfold ret. rewrite F64Facts.mul_int_hundred.
  apply F64More.nonneg_zero_or_positive in Hp.
  pose proof (F64More.of_int_nonneg _ _ Hs Hy) as Hy'.
  destruct (F64More.mul_nonneg _ _ Hp Hy') as [Hnan|Hpos].
  - rewrite Hnan. discriminate.
  - apply F64More.nonneg_zero_or_positive in Hpos.
    pose proof (F64Facts.mul_hundred_nonneg _ Hpos) as Hw.
    destruct (F64.ceil _) as [e|n] eqn:Hc; [discriminate|].
    pose proof (F64Facts.ceil_nonneg _ _ Hw Hc) as Hn.
    unfold F64.int_truediv. simpl.
    pose proof (F64Facts.div_round_signed n Hn) as Hr.
    destruct (F64.div_round n 100) as [s|s| |s m e]; simpl in Hr; subst;
      try discriminate; try tauto; intros [= <-]; reflexivity.
Qed.

Lemma calculate_value_sign_witness :
  F64.nonneg (F64.decimal 6303 2) = true.
Proof.
  apply (calculate_value_sign Scenario.dune).
  - split; [simpl; lia|vm_compute; reflexivity].
  - vm_compute. reflexivity.
Defined.

End EntityExtras.

(** ** More on the repository *)

Module RepositoryExtras.

Import BookstoreInventory.
Import Scenario.
Import Conditions.

(** What [update_stock] computes, case by case. *)
Lemma update_stock_run now self title delta reason :
  update_stock now self title delta reason
  = match get_book_by_title self title with
    | None => (self, false)
    | Some book =>
        if Book.stock book + delta <? 0 then (self, false)
        else
          (mk (json_file self)
              (PyDict.set title (with_stock book (Book.stock book + delta))
                 (books self))
              (transaction_log self
               ++ [stock_update_entry now title (Book.stock book)
                     (Book.stock book + delta) delta reason]),
           true)
    end.
Proof.
  unfold update_stock, Book.update_stock.
  destruct (get_book_by_title self title) as [book|]; [|reflexivity].
  now destruct (Book.stock book + delta <? 0).
Qed.

Lemma get_in {V} (d : PyDict.t V) k v :
  PyDict.get k d = Some v -> In (k, v) d.
Proof.
  induction d as [|[k0 v0] d IH]; simpl; [discriminate|].
  destruct (String.eqb_spec k k0) as [->|Hne].
  - intros [= ->]. now left.
  - intros H. right. auto.
Qed.

(** X6. [sell_book] returns [True] exactly when the book is there and the
    quantity does not exceed its stock; otherwise nothing changes. On success
    the stock goes down by the quantity and one [STOCK_UPDATE] entry with the
    change [-quantity] and the reason [Sale of <quantity> units] is logged.
    A negative quantity is not refused: on a book with no negative stock it
    always succeeds and raises the stock. *)
Theorem sell_book_effect now self title quantity :
  (snd (sell_book now self title quantity) = true <->
   exists book,
     get_book_by_title self title = Some book /\ quantity <= Book.stock book)
  /\ (snd (sell_book now self title quantity) = false ->
      fst (sell_book now self title quantity) = self)
  /\ (forall book,
        get_book_by_title self title = Some book ->
        quantity <= Book.stock book ->
        get_book_by_title (fst (sell_book now self title quantity)) title
        = Some (with_stock book (Book.stock book - quantity))
        /\ transaction_log (fst (sell_book now self title quantity))
           = (transaction_log self
              ++ [stock_update_entry now title (Book.stock book)
                    (Book.stock book - quantity) (- quantity)
                    ("Sale of " ++ PyFormat.str quantity ++ " units")%string])%list)
  /\ (forall book,
        get_book_by_title self title = Some book ->
        0 <= Book.stock book -> quantity < 0 ->
        snd (sell_book now self title quantity) = true).
Proof.
  unfold sell_book. rewrite update_stock_run.
  destruct (get_book_by_title self title) as [book|] eqn:Hget.
  - destruct (Z.ltb_spec (Book.stock book + - quantity) 0) as [Hlt|Hge]; simpl.
    + split; [split; [discriminate|intros (b & [= <-] & Hq); lia]|].
      split; [reflexivity|].
      split; intros b [= <-]; intros; lia.
    + split; [split; [intros _; exists book; split; [reflexivity|lia]|reflexivity]|].
      split; [discriminate|].
      split; [|reflexivity].
      intros b [= <-] Hq. unfold get_book_by_title. simpl.
      rewrite PyDictFacts.get_set_eq. now rewrite Z.add_opp_r.
  - simpl. split; [split; [discriminate|intros (b & Hb & _); discriminate]|].
    split; [reflexivity|]. split; intros b Hb; discriminate.
Qed.

Lemma sell_book_effect_witness :
  snd (sell_book "t1" dune_shop "Dune" 2) = true
  /\ fst (sell_book "t1" dune_shop "Dune" 4) = dune_shop
  /\ transaction_log (fst (sell_book "t1" dune_shop "Dune" 2))
     = [stock_update_entry "t1" "Dune" 3 1 (-2) "Sale of 2 units"]
  /\ snd (sell_book "t1" dune_shop "Dune" (-5)) = true.
Proof.
  split; [|split; [|split]].
  - apply (proj1 (sell_book_effect "t1" dune_shop "Dune" 2)).
    exists dune. split; [reflexivity|simpl; lia].
  - apply (proj1 (proj2 (sell_book_effect "t1" dune_shop "Dune" 4))).
    reflexivity.
  - apply (proj1 (proj2 (proj2 (sell_book_effect "t1" dune_shop "Dune" 2)))
             dune); [reflexivity|simpl; lia].
  - apply (proj2 (proj2 (proj2 (sell_book_effect "t1" dune_shop "Dune" (-5))))
             dune); [reflexivity|simpl; lia|lia].
Defined.

(** X7. [restock_book] returns [True] exactly when the book is there and its
    stock plus the quantity is not negative; otherwise nothing changes. On
    success the stock goes up by the quantity and one [STOCK_UPDATE] entry
    with the reason [Restock of <quantity> units] is logged. A negative
    quantity is not refused: it takes stock out. *)
Theorem restock_book_effect now self title quantity :
  (snd (restock_book now self title quantity) = true <->
   exists book,
     get_book_by_title self title = Some book
     /\ 0 <= Book.stock book + quantity)
  /\ (snd (restock_book now self title quantity) = false ->
      fst (restock_book now self title quantity) = self)
  /\ (forall book,
        get_book_by_title self title = Some book ->
        0 <= Book.stock book + quantity ->
        get_book_by_title (fst (restock_book now self title quantity)) title
        = Some (with_stock book (Book.stock book + quantity))
        /\ transaction_log (fst (restock_book now self title quantity))
           = (transaction_log self
              ++ [stock_update_entry now title (Book.stock book)
                    (Book.stock book + quantity) quantity
                    ("Restock of " ++ PyFormat.str quantity ++ " units")%string])%list).
Proof.
  unfold restock_book. rewrite update_stock_run.
  destruct (get_book_by_title self title) as [book|] eqn:Hget.
  - destruct (Z.ltb_spec (Book.stock book + quantity) 0) as [Hlt|Hge]; simpl.
    + split; [split; [discriminate|intros (b & [= <-] & Hq); lia]|].
      split; [reflexivity|].
      intros b [= <-]; intros; lia.
    + split; [split; [intros _; exists book; split; [reflexivity|lia]|reflexivity]|].
      split; [discriminate|].
      intros b [= <-] Hq. unfold get_book_by_title. simpl.
      now rewrite PyDictFacts.get_set_eq.
  - simpl. split; [split; [discriminate|intros (b & Hb & _); discriminate]|].
    split; [reflexivity|]. intros b Hb; discriminate.
Qed.

Lemma restock_book_effect_witness :
  snd (restock_book "t1" dune_shop "Dune" 7) = true
  /\ fst (restock_book "t1" dune_shop "Dune" (-4)) = dune_shop
  /\ transaction_log (fst (restock_book "t1" dune_shop "Dune" (-1)))
     = [stock_update_entry "t1" "Dune" 3 2 (-1) "Restock of -1 units"].
Proof.
  split; [|split].
  - apply (proj1 (restock_book_effect "t1" dune_shop "Dune" 7)).
    exists dune. split; [reflexivity|simpl; lia].
  - apply (proj1 (proj2 (restock_book_effect "t1" dune_shop "Dune" (-4)))).
    reflexivity.
  - apply (proj2 (proj2 (restock_book_effect "t1" dune_shop "Dune" (-1)))
             dune); [reflexivity|simpl; lia].
Defined.

(** X8. Selling a quantity that is in stock and restocking the same quantity
    gives back the same books; the ledger keeps both entries. *)
Theorem sell_then_restock now1 now2 self title quantity book :
  get_book_by_title self title = Some book ->
  0 <= Book.stock book ->
  quantity <= Book.stock book ->
  exists self1 self2,
    sell_book now1 self title quantity = (self1, true)
    /\ restock_book now2 self1 title quantity = (self2, true)
    /\ books self2 = books self
    /\ transaction_log self2
       = (transaction_log self
          ++ [ stock_update_entry now1 title (Book.stock book)
                 (Book.stock book - quantity) (- quantity)
                 ("Sale of " ++ PyFormat.str quantity ++ " units")%string;
               stock_update_entry now2 title (Book.stock book - quantity)
                 (Book.stock book) quantity
                 ("Restock of " ++ PyFormat.str quantity ++ " units")%string ])%list.
Proof.
  intros Hget Hs Hq. unfold sell_book, restock_book.
  rewrite update_stock_run, Hget.
  destruct (Z.ltb_spec (Book.stock book + - quantity) 0); [lia|].
  eexists. eexists. split; [reflexivity|].
  rewrite update_stock_run. unfold get_book_by_title. cbn [books].
  rewrite PyDictFacts.get_set_eq. cbn [with_stock Book.stock].
  destruct (Z.ltb_spec (Book.stock book + - quantity + quantity) 0); [lia|].
  split; [reflexivity|]. cbn [books transaction_log json_file].
  split.
  - rewrite PyDictMore.set_overwrite.
    apply PyDictMore.set_same. unfold get_book_by_title in Hget.
    rewrite Hget. f_equal. destruct book as [t a p s]. simpl. f_equal. lia.
  - rewrite <- app_assoc. simpl. rewrite Z.add_opp_r.
    do 4 f_equal. unfold stock_update_entry. do 3 f_equal. f_equal. lia.
Qed.

Lemma sell_then_restock_witness :
  exists self1 self2,
    sell_book "t1" dune_shop "Dune" 2 = (self1, true)
    /\ restock_book "t2" self1 "Dune" 2 = (self2, true)
    /\ books self2 = books dune_shop
    /\ transaction_log self2
       = [ stock_update_entry "t1" "Dune" 3 1 (-2) "Sale of 2 units";
           stock_update_entry "t2" "Dune" 1 3 2 "Restock of 2 units" ].
Proof.
  apply (sell_then_restock "t1" "t2" dune_shop "Dune" 2 dune);
    [reflexivity|simpl; lia|simpl; lia].
Defined.

(** X9. [update_price] on a key that is absent returns [False] and changes
    nothing, whatever the price. On a key that is present, a price that
    cannot be rounded raises and no state is returned; otherwise only the
    price of that book changes, to the price rounded up to the cent, and one
    [PRICE_UPDATE] entry with the old and the new price is logged. *)
Theorem update_price_effect now self title new_price :
  (get_book_by_title self title = None ->
   update_price now self title new_price = inr (self, false))
  /\ (forall book,
        get_book_by_title self title = Some book ->
        (forall e,
           F64.ceil_cents new_price = inl e ->
           update_price now self title new_price = inl e)
        /\ (forall p,
              F64.ceil_cents new_price = inr p ->
              exists self',
                update_price now self title new_price = inr (self', true)
                /\ get_book_by_title self' title
                   = Some (Book.mk (Book.title book) (Book.author book) p
                             (Book.stock book))
                /\ (forall other, title <> other ->
                    get_book_by_title self' other
                    = get_book_by_title self other)
                /\ PyDict.keys (books self') = PyDict.keys (books self)
                /\ transaction_log self'
                   = (transaction_log self
                      ++ [price_update_entry now title (Book.price book) p])%list)).
Proof.
  unfold update_price. split; [now intros ->|].
  intros book Hget. rewrite Hget. unfold Book.update_price, bind. split.
  - now intros e ->.
  - intros p ->. eexists. split; [reflexivity|].
    unfold get_book_by_title in *. simpl.
    split; [apply PyDictFacts.get_set_eq|].
    split; [intros other Hne; now apply PyDictFacts.get_set_ne|].
    split; [|reflexivity].
    apply PyDictFacts.keys_set_mem. unfold PyDict.mem. now rewrite Hget.
Qed.

Lemma update_price_effect_witness :
  update_price "t1" empty_shop "Dune" S754_nan = inr (empty_shop, false)
  /\ update_price "t1" dune_shop "Dune" S754_nan = inl ValueError
  /\ exists self',
       update_price "t1" dune_shop "Dune" (F64.decimal 9991 3)
       = inr (self', true)
       /\ transaction_log self'
          = [price_update_entry "t1" "Dune" (F64.decimal 2101 2)
               (F64.decimal 10 0)].
Proof.
  split; [|split].
  - apply (proj1 (update_price_effect "t1" empty_shop "Dune" S754_nan)).
    reflexivity.
  - apply (proj1 (proj2 (update_price_effect "t1" dune_shop "Dune" S754_nan)
                    dune ltac:(reflexivity))).
    reflexivity.
  - destruct (proj2 (proj2 (update_price_effect "t1" dune_shop "Dune"
                              (F64.decimal 9991 3)) dune ltac:(reflexivity))
                (F64.decimal 10 0) ltac:(vm_compute; reflexivity))
      as (self' & Hrun & _ & _ & _ & Hlog).
    exists self'. split; [exact Hrun|exact Hlog].
Defined.

Lemma add_book_mem now self title author price stock self' key :
  add_book now self title author price stock = inr (self', key) ->
  key = PyStr.strip title /\ PyDict.mem key (books self') = true.
Proof.
  unfold add_book, bind.
  destruct (Book.__init__ title author price stock) as [e|book] eqn:Hb;
    [discriminate|].
  destruct (BookFacts.init_inv _ _ _ _ _ Hb) as (Ht & _).
  destruct (PyDict.mem (Book.title book) (books self)) eqn:Hm.
  - intros [= <- <-]. now split.
  - intros [= <- <-]. split; [exact Ht|]. simpl.
    unfold PyDict.mem. now rewrite PyDictFacts.get_set_eq.
Qed.

(** X10. Adding a title a second time changes nothing, even with another author,
    price or stock, as long as the constructor accepts the new arguments:
    the entity added first stays, and no entry is logged. *)
Theorem add_book_twice now1 now2 self title1 author1 price1 stock1
    title2 author2 price2 stock2 self1 key :
  add_book now1 self title1 author1 price1 stock1 = inr (self1, key) ->
  PyStr.strip title2 = key ->
  returns (Book.__init__ title2 author2 price2 stock2) = true ->
  add_book now2 self1 title2 author2 price2 stock2 = inr (self1, key).
Proof.
  intros H1 Hk Hr. destruct (add_book_mem _ _ _ _ _ _ _ _ H1) as (_ & Hm).
  unfold add_book, bind.
  destruct (Book.__init__ title2 author2 price2 stock2) as [e|book] eqn:Hb;
    [discriminate|].
  destruct (BookFacts.init_inv _ _ _ _ _ Hb) as (Ht & _).
  now rewrite Ht, Hk, Hm.
Qed.

Lemma add_book_twice_witness :
  exists self1,
    add_book "t1" empty_shop "Dune" "Herbert" (F64.decimal 21004 3) 3
    = inr (self1, "Dune")
    /\ add_book "t2" self1 " Dune " "Someone" (F64.decimal 1 0) 9
       = inr (self1, "Dune").
Proof.
  eexists. split; [vm_compute; reflexivity|].
  apply (add_book_twice "t1" "t2" empty_shop "Dune" "Herbert"
           (F64.decimal 21004 3) 3 " Dune " "Someone" (F64.decimal 1 0) 9);
    vm_compute; reflexivity.
Defined.

(** X11. Adding a book under a fresh key and then removing it (with a
    confirmation, or when it has no stock) gives back the same books; the
    ledger keeps the [ADD_BOOK] and the [REMOVE_BOOK] entry. *)
Theorem add_then_remove now1 now2 answer self title author price stock book :
  Book.__init__ title author price stock = inr book ->
  PyDict.mem (PyStr.strip title) (books self) = false ->
  confirmed answer = true \/ stock <= 0 ->
  exists self1 self2,
    add_book now1 self title author price stock
    = inr (self1, PyStr.strip title)
    /\ remove_book now2 answer self1 (PyStr.strip title) = inr (self2, true)
    /\ books self2 = books self
    /\ transaction_log self2
       = (transaction_log self
          ++ [ add_entry now1 book stock;
               remove_entry now2 (PyStr.strip title) book ])%list.
Proof.
  intros Hb Hfresh Hgo.
  destruct (BookFacts.init_inv _ _ _ _ _ Hb) as (Ht & _ & _ & Hs).
  unfold add_book, bind. rewrite Hb, Ht, Hfresh.
  eexists. eexists. split; [reflexivity|].
  unfold remove_book, get_book_by_title, log_transaction,
    with_transaction_log, with_books. cbn [books transaction_log json_file].
  rewrite PyDictFacts.get_set_eq.
  assert (Hguard : (0 <? Book.stock book) && negb (confirmed answer) = false).
  { destruct Hgo as [->|Hle]; [apply andb_false_r|].
    replace (0 <? Book.stock book) with false; [reflexivity|].
    symmetry. apply Z.ltb_ge. lia. }
  rewrite Hguard. unfold bind.
  rewrite (PyDictFacts.del_present _ _ book (PyDictFacts.get_set_eq _ _ _)).
  split; [reflexivity|]. cbn [books transaction_log].
  split.
  - rewrite (PyDictFacts.set_fresh _ _ _ Hfresh).
    now apply PyDictMore.remove_last.
  - rewrite <- app_assoc. unfold add_entry, remove_entry. now rewrite Ht.
Qed.

Lemma add_then_remove_witness :
  exists self1 self2,
    add_book "t1" dune_shop "Emma" "Austen" (F64.decimal 5 0) 0
    = inr (self1, "Emma")
    /\ remove_book "t2" "n" self1 "Emma" = inr (self2, true)
    /\ books self2 = books dune_shop
    /\ transaction_log self2
       = [add_entry "t1" emma 0; remove_entry "t2" "Emma" emma].
Proof.
  apply (add_then_remove "t1" "t2" "n" dune_shop "Emma" "Austen"
           (F64.decimal 5 0) 0 emma).
  - vm_compute. reflexivity.
  - reflexivity.
  - right. lia.
Defined.

Lemma consistent_set self title book' :
  consistent self ->
  stored_ok (title, book') ->
  consistent (mk (json_file self) (PyDict.set title book' (books self))
                (transaction_log self)).
Proof.
  intros [Hnd Hall] Hok. split; simpl.
  - now apply PyDictMore.NoDup_keys_set.
  - now apply PyDictMore.Forall_set.
Qed.

Lemma consistent_log self l :
  consistent self -> consistent (mk (json_file self) (books self) l).
Proof. intros H. exact H. Qed.

Lemma stored_ok_get self title book :
  consistent self ->
  get_book_by_title self title = Some book ->
  stored_ok (title, book).
Proof.
  intros [_ Hall] Hget. rewrite Forall_forall in Hall.
  exact (Hall _ (get_in _ _ _ Hget)).
Qed.

Lemma consistent_update_stock now self title delta reason :
  consistent self -> consistent (fst (update_stock now self title delta reason)).
Proof.
  intros Hc. rewrite update_stock_run.
  destruct (get_book_by_title self title) as [book|] eqn:Hget; [|exact Hc].
  destruct (Z.ltb_spec (Book.stock book + delta) 0); [exact Hc|].
  destruct (stored_ok_get _ _ _ Hc Hget) as (Ht & Hk & _).
  apply (consistent_log
           (mk (json_file self) (PyDict.set title _ (books self))
              (transaction_log self))).
  apply consistent_set; [exact Hc|]. repeat split; simpl in *; auto.
Qed.

(** X13. The operations of the repository keep [books] consistent: starting from
    the empty repository, keys stay unique and stripped, every book is filed
    under its own title, and no stock is negative. *)
Theorem consistent_preserved :
  (forall json_file, consistent (mk json_file [] []))
  /\ (forall now self title author price stock self' key,
        consistent self ->
        add_book now self title author price stock = inr (self', key) ->
        consistent self')
  /\ (forall now self title delta reason,
        consistent self ->
        consistent (fst (update_stock now self title delta reason)))
  /\ (forall now self title quantity,
        consistent self ->
        consistent (fst (sell_book now self title quantity))
        /\ consistent (fst (restock_book now self title quantity)))
  /\ (forall now self title new_price self' ok,
        consistent self ->
        update_price now self title new_price = inr (self', ok) ->
        consistent self')
  /\ (forall now answer self title self' ok,
        consistent self ->
        remove_book now answer self title = inr (self', ok) ->
        consistent self').
Proof.
  split; [|split; [|split; [|split; [|split]]]].
  - intros json_file. split; simpl; constructor.
  - intros now self title author price stock self' key Hc.
    unfold add_book, bind.
    destruct (Book.__init__ title author price stock) as [e|book] eqn:Hb;
      [discriminate|].
    destruct (BookFacts.init_inv _ _ _ _ _ Hb) as (Ht & _ & _ & Hs).
    destruct (PyDict.mem (Book.title book) (books self)).
    + now intros [= <- _].
    + intros [= <- _].
      apply (consistent_log
               (mk (json_file self) (PyDict.set _ book (books self))
                  (transaction_log self))).
      apply consistent_set; [exact Hc|].
      repeat split; simpl; [now rewrite Ht, StrFacts.strip_idem|lia].
  - intros. now apply consistent_update_stock.
  - intros. split; now apply consistent_update_stock.
  - intros now self title new_price self' ok Hc. unfold update_price.
    destruct (get_book_by_title self title) as [book|] eqn:Hget;
      [|now intros [= <- _]].
    unfold Book.update_price, bind.
    destruct (F64.ceil_cents new_price) as [e|p]; [discriminate|].
    intros [= <- _].
    destruct (stored_ok_get _ _ _ Hc Hget) as (Ht & Hk & Hs).
    apply (consistent_log
             (mk (json_file self) (PyDict.set title _ (books self))
                (transaction_log self))).
    apply consistent_set; [exact Hc|]. repeat split; simpl in *; auto.
  - intros now answer self title self' ok Hc. unfold remove_book.
    destruct (get_book_by_title self title) as [book|] eqn:Hget;
      [|now intros [= <- _]].
    destruct ((0 <? Book.stock book) && negb (confirmed answer));
      [now intros [= <- _]|].
    unfold bind, log_transaction, with_transaction_log. cbn [books].
    unfold get_book_by_title in Hget.
    rewrite (PyDictFacts.del_present _ _ _ Hget).
    intros [= <- _]. destruct Hc as [Hnd Hall]. split; simpl.
    + now apply PyDictMore.NoDup_keys_remove.
    + now apply PyDictMore.Forall_remove.
Qed.

(** X14. Only [add_book] strips the title it is given. In a consistent
    repository a title with leading or trailing whitespace is no key, so
    lookup finds nothing and every other operation returns [False] with
    nothing changed. *)
Theorem unstripped_title_is_no_key now answer self title :
  consistent self ->
  PyStr.strip title <> title ->
  get_book_by_title self title = None
  /\ (forall delta reason,
        update_stock now self title delta reason = (self, false))
  /\ (forall quantity,
        sell_book now self title quantity = (self, false)
        /\ restock_book now self title quantity = (self, false))
  /\ (forall new_price,
        update_price now self title new_price = inr (self, false))
  /\ remove_book now answer self title = inr (self, false).
Proof.
  intros Hc Hne.
  assert (Hget : get_book_by_title self title = None).
  { destruct (get_book_by_title self title) as [book|] eqn:Hget; [|reflexivity].
    destruct (stored_ok_get _ _ _ Hc Hget) as (_ & Hk & _). now elim Hne. }
  split; [exact Hget|].
  unfold sell_book, restock_book, update_stock, update_price, remove_book.
  rewrite Hget. repeat split.
Qed.

Lemma unstripped_title_is_no_key_witness :
  get_book_by_title dune_shop " Dune" = None
  /\ sell_book "t1" dune_shop " Dune" 1 = (dune_shop, false)
  /\ remove_book "t1" "y" dune_shop "Dune " = inr (dune_shop, false).
Proof.
  assert (Hc : consistent dune_shop).
  { split; simpl.
    - repeat constructor. simpl. tauto.
    - repeat constructor; simpl; lia. }
  split; [|split].
  - apply (unstripped_title_is_no_key "t1" "y" dune_shop " Dune" Hc).
    discriminate.
  - apply (unstripped_title_is_no_key "t1" "y" dune_shop " Dune" Hc).
    discriminate.
  - apply (unstripped_title_is_no_key "t1" "y" dune_shop "Dune " Hc).
    discriminate.
Defined.

Lemma consistent_preserved_witness :
  consistent dune_shop
  /\ consistent (fst (sell_book "t1" dune_shop "Dune" 2)).
Proof.
  destruct consistent_preserved as (Hnew & Hadd & _ & Hsell & _).
  assert (Hc : consistent dune_shop).
  { apply (Hadd "t0" (mk "books.json" [] []) "Dune" "Herbert"
             (F64.decimal 21004 3) 3
             (mk "books.json" [("Dune", dune)] [add_entry "t0" dune 3]) "Dune").
    - apply Hnew.
    - vm_compute. reflexivity. }
  split; [exact Hc|]. now apply Hsell.
Defined.

Lemma appended_none now key l : appended now key l l 0.
Proof. exists []. rewrite app_nil_r. repeat split. constructor. Qed.

Lemma appended_one now key l action details :
  appended now key l (l ++ [Entry.mk now action key details]) 1.
Proof.
  eexists. split; [reflexivity|]. split; [reflexivity|].
  repeat constructor.
Qed.

(** X15. The ledger is append-only. Every operation leaves the entries already
    there in place and appends at most one entry, stamped with the time of
    the call and filed under the key: exactly one when [update_stock],
    [update_price] or [remove_book] return [True] and when [add_book] finds
    the key fresh, none otherwise. *)
Theorem ledger_append_only :
  (forall now self title author price stock self' key,
     add_book now self title author price stock = inr (self', key) ->
     appended now key (transaction_log self) (transaction_log self')
       (if PyDict.mem key (books self) then 0 else 1))
  /\ (forall now self title delta reason,
        appended now title (transaction_log self)
          (transaction_log (fst (update_stock now self title delta reason)))
          (if snd (update_stock now self title delta reason) then 1 else 0))
  /\ (forall now self title new_price self' ok,
        update_price now self title new_price = inr (self', ok) ->
        appended now title (transaction_log self) (transaction_log self')
          (if ok then 1 else 0))
  /\ (forall now answer self title self' ok,
        remove_book now answer self title = inr (self', ok) ->
        appended now title (transaction_log self) (transaction_log self')
          (if ok then 1 else 0)).
Proof.
  split; [|split; [|split]].
  - intros now self title author price stock self' key.
    unfold add_book, bind.
    destruct (Book.__init__ title author price stock) as [e|book];
      [discriminate|].
    destruct (PyDict.mem (Book.title book) (books self)) eqn:Hm;
      intros [= <- <-]; rewrite Hm.
    + apply appended_none.
    + apply appended_one.
  - intros now self title delta reason. rewrite update_stock_run.
    destruct (get_book_by_title self title) as [book|];
      [|apply appended_none].
    destruct (Book.stock book + delta <? 0);
      [apply appended_none|apply appended_one].
  - intros now self title new_price self' ok. unfold update_price.
    destruct (get_book_by_title self title) as [book|];
      [|intros [= <- <-]; apply appended_none].
    unfold Book.update_price, bind.
    destruct (F64.ceil_cents new_price); [discriminate|].
    intros [= <- <-]. apply appended_one.
  - intros now answer self title self' ok. unfold remove_book.
    destruct (get_book_by_title self title) as [book|] eqn:Hget;
      [|intros [= <- <-]; apply appended_none].
    destruct ((0 <? Book.stock book) && negb (confirmed answer));
      [intros [= <- <-]; apply appended_none|].
    unfold bind, log_transaction, with_transaction_log. cbn [books].
    unfold get_book_by_title in Hget.
    rewrite (PyDictFacts.del_present _ _ _ Hget).
    intros [= <- <-]. apply appended_one.
Qed.

Lemma ledger_append_only_witness :
  appended "t1" "Dune" [] [add_entry "t1" dune 3] 1
  /\ appended "t2" "Dune" [] [] 0.
Proof.
  destruct ledger_append_only as (Hadd & _ & _ & Hremove).
  split.
  - apply (Hadd "t1" empty_shop "Dune" "Herbert" (F64.decimal 21004 3) 3
             (mk "books.json" [("Dune", dune)] [add_entry "t1" dune 3])).
    vm_compute. reflexivity.
  - apply (Hremove "t2" "n" dune_shop "Dune" dune_shop false).
    reflexivity.
Defined.

Lemma printable_snoc l e :
  Forall printable l -> printable e -> Forall printable (l ++ [e]).
Proof. intros Hl He. apply Forall_app. split; [exact Hl|now constructor]. Qed.

(** X16. The entries the operations write are entries [view_transaction_log] can
    print: a ledger that was printable stays printable under every
    operation. *)
Theorem ledger_stays_printable :
  (forall now self title author price stock self' key,
     Forall printable (transaction_log self) ->
     add_book now self title author price stock = inr (self', key) ->
     Forall printable (transaction_log self'))
  /\ (forall now self title delta reason,
        Forall printable (transaction_log self) ->
        Forall printable
          (transaction_log (fst (update_stock now self title delta reason))))
  /\ (forall now self title new_price self' ok,
        Forall printable (transaction_log self) ->
        update_price now self title new_price = inr (self', ok) ->
        Forall printable (transaction_log self'))
  /\ (forall now answer self title self' ok,
        Forall printable (transaction_log self) ->
        remove_book now answer self title = inr (self', ok) ->
        Forall printable (transaction_log self')).
Proof.
  split; [|split; [|split]].
  - intros now self title author price stock self' key Hl.
    unfold add_book, bind.
    destruct (Book.__init__ title author price stock) as [e|book];
      [discriminate|].
    destruct (PyDict.mem (Book.title book) (books self));
      intros [= <- _]; [exact Hl|].
    apply printable_snoc; [exact Hl|reflexivity].
  - intros now self title delta reason Hl. rewrite update_stock_run.
    destruct (get_book_by_title self title) as [book|]; [|exact Hl].
    destruct (Book.stock book + delta <? 0); [exact Hl|].
    apply printable_snoc; [exact Hl|reflexivity].
  - intros now self title new_price self' ok Hl. unfold update_price.
    destruct (get_book_by_title self title) as [book|];
      [|now intros [= <- _]].
    unfold Book.update_price, bind.
    destruct (F64.ceil_cents new_price); [discriminate|].
    intros [= <- _]. apply printable_snoc; [exact Hl|reflexivity].
  - intros now answer self title self' ok Hl. unfold remove_book.
    destruct (get_book_by_title self title) as [book|] eqn:Hget;
      [|now intros [= <- _]].
    destruct ((0 <? Book.stock book) && negb (confirmed answer));
      [now intros [= <- _]|].
    unfold bind, log_transaction, with_transaction_log. cbn [books].
    unfold get_book_by_title in Hget.
    rewrite (PyDictFacts.del_present _ _ _ Hget).
    intros [= <- _]. apply printable_snoc; [exact Hl|reflexivity].
Qed.

Lemma ledger_stays_printable_witness :
  Forall printable [add_entry "t1" dune 3]
  /\ Forall printable
       (transaction_log (fst (update_stock "t2" dune_shop "Dune" 1 "gift"))).
Proof.
  destruct ledger_stays_printable as (Hadd & Hstock & _).
  split.
  - apply (Hadd "t1" empty_shop "Dune" "Herbert" (F64.decimal 21004 3) 3
             (mk "books.json" [("Dune", dune)] [add_entry "t1" dune 3]) "Dune").
    + constructor.
    + vm_compute. reflexivity.
  - apply Hstock. constructor.
Defined.

Lemma enumerate_snd {A} (l : list A) start :
  map snd (PyFormat.enumerate start l) = l.
Proof.
  revert start. induction l as [|x l IH]; intros start; simpl;
    [reflexivity|now rewrite IH].
Qed.

Lemma enumerate_fst {A} (l : list A) k :
  map fst (PyFormat.enumerate (Z.of_nat k) l)
  = map Z.of_nat (seq k (List.length l)).
Proof.
  revert k. induction l as [|x l IH]; intros k; simpl; [reflexivity|].
  f_equal. replace (Z.of_nat k + 1) with (Z.of_nat (S k)) by lia. apply IH.
Qed.

Lemma print_transactions_all numbered :
  Forall printable (map snd numbered) ->
  print_transactions numbered = inr numbered.
Proof.
  induction numbered as [|[i e] l IH]; simpl; [reflexivity|].
  intros [He Hl]%Forall_cons_iff. unfold printable in He.
  rewrite He. simpl. now rewrite (IH Hl).
Qed.

Lemma in_firstn {A} (x : A) n l : In x (firstn n l) -> In x l.
Proof.
  intros H. rewrite <- (firstn_skipn n l). apply in_or_app. now left.
Qed.

Lemma in_skipn {A} (x : A) n l : In x (skipn n l) -> In x l.
Proof.
  intros H. rewrite <- (firstn_skipn n l). apply in_or_app. now right.
Qed.

Lemma slice_from_recent {A} (l : list A) limit :
  rev (PyFormat.slice_from (- limit) l)
  = if 0 <? limit then firstn (Z.to_nat limit) (rev l)
    else rev (skipn (Z.to_nat (- limit)) l).
Proof.
  unfold PyFormat.slice_from.
  destruct (Z.ltb_spec 0 limit) as [Hpos|Hle].
  - replace (- limit <? 0) with true by (symmetry; apply Z.ltb_lt; lia).
    rewrite firstn_rev. do 2 f_equal. lia.
  - replace (- limit <? 0) with false by (symmetry; apply Z.ltb_ge; lia).
    f_equal.
    destruct (Z.le_gt_cases (- limit) (Z.of_nat (List.length l))) as [H|H].
    + now rewrite Z.min_l.
    + rewrite Z.min_r by lia. rewrite Nat2Z.id.
      rewrite skipn_all. symmetry. apply skipn_all2. lia.
Qed.

(** X17. On a ledger whose entries are printable, [view_transaction_log] never
    raises. With a positive limit it shows the last [limit] entries (all of
    them when there are fewer), newest first, numbered from 1. A limit of
    zero does not show nothing: it shows the whole ledger, and a negative
    limit [-k] shows all but the [k] oldest entries. *)
Theorem view_transaction_log_window self limit :
  Forall printable (transaction_log self) ->
  exists shown,
    view_transaction_log self limit = inr shown
    /\ map fst shown = map Z.of_nat (seq 1 (List.length shown))
    /\ map snd shown
       = if 0 <? limit then
           firstn (Z.to_nat limit) (rev (transaction_log self))
         else rev (skipn (Z.to_nat (- limit)) (transaction_log self)).
Proof.
  intros Hl. unfold view_transaction_log.
  pose proof (slice_from_recent (transaction_log self) limit) as Hw.
  set (recent := rev (PyFormat.slice_from (- limit) (transaction_log self))) in *.
  assert (Hp : Forall printable recent).
  { rewrite Forall_forall in *. intros e He. apply Hl.
    rewrite Hw in He. destruct (0 <? limit).
    - apply in_rev. exact (in_firstn _ _ _ He).
    - apply in_rev in He. exact (in_skipn _ _ _ He). }
  destruct (transaction_log self) as [|e0 l0] eqn:Hlog.
  - exists []. split; [reflexivity|]. split; [reflexivity|].
    simpl. rewrite skipn_nil, firstn_nil. now destruct (0 <? limit).
  - exists (PyFormat.enumerate 1 recent).
    split; [apply print_transactions_all; now rewrite enumerate_snd|].
    split.
    + change (PyFormat.enumerate 1 recent)
        with (PyFormat.enumerate (Z.of_nat 1) recent).
      rewrite (enumerate_fst recent 1). f_equal. f_equal.
      rewrite <- (length_map snd (PyFormat.enumerate (Z.of_nat 1) recent)).
      now rewrite enumerate_snd.
    + rewrite enumerate_snd. exact Hw.
Qed.

Lemma view_transaction_log_window_witness :
  exists shown,
    view_transaction_log
      (mk "books.json" []
         [add_entry "t1" dune 3;
          stock_update_entry "t2" "Dune" 3 1 (-2) "Sale of 2 units";
          remove_entry "t3" "Dune" dune]) 2
    = inr shown
    /\ map fst shown = [1; 2]
    /\ map snd shown
       = [remove_entry "t3" "Dune" dune;
          stock_update_entry "t2" "Dune" 3 1 (-2) "Sale of 2 units"].
Proof.
  destruct (view_transaction_log_window
              (mk "books.json" []
                 [add_entry "t1" dune 3;
                  stock_update_entry "t2" "Dune" 3 1 (-2) "Sale of 2 units";
                  remove_entry "t3" "Dune" dune]) 2)
    as (shown & Hrun & Hnum & Hent).
  - repeat constructor.
  - exists shown. split; [exact Hrun|]. split; [|exact Hent].
    rewrite Hnum. rewrite <- (length_map snd shown), Hent. reflexivity.
Defined.

(** X18. [view_transaction_log] has no handler of its own: when the newest entry
    of the ledger lacks a key of [details] that its action needs, or holds a
    value the format refuses, the exception reaches the caller for every
    limit that is not negative. *)
Theorem view_transaction_log_raises self older e exn limit :
  transaction_log self = (older ++ [e])%list ->
  print_transaction e = inl exn ->
  0 <= limit ->
  view_transaction_log self limit = inl exn.
Proof.
  intros Hlog He Hlim. unfold view_transaction_log. rewrite Hlog.
  assert (Hrecent : exists rest,
             rev (PyFormat.slice_from (- limit) (older ++ [e])) = e :: rest).
  { rewrite slice_from_recent. rewrite rev_app_distr. simpl.
    destruct (Z.ltb_spec 0 limit) as [Hpos|Hle].
    - destruct (Z.to_nat limit) as [|n] eqn:E; [lia|]. simpl. eauto.
    - replace (- limit) with 0 by lia.
      change (Z.to_nat 0) with 0%nat. rewrite skipn_O.
      rewrite rev_app_distr. simpl. eauto. }
  destruct Hrecent as [rest ->].
  destruct (older ++ [e])%list eqn:E;
    [now destruct older|].
  simpl. now rewrite He.
Qed.

Lemma view_transaction_log_raises_witness :
  view_transaction_log
    (mk "books.json" [] [add_entry "t1" dune 3; bare_entry]) 10
  = inl (KeyError "price").
Proof.
  apply (view_transaction_log_raises
           (mk "books.json" [] [add_entry "t1" dune 3; bare_entry])
           [add_entry "t1" dune 3] bare_entry).
  - reflexivity.
  - reflexivity.
  - lia.
Defined.

(** X19. A query that equals the title or the author of a stored book up to
    letter case and surrounding whitespace finds that book. *)
Theorem find_book_exact self query book :
  In book (PyDict.values (books self)) ->
  PyStr.strip (PyStr.lower query) = PyStr.strip (PyStr.lower (Book.title book))
  \/ PyStr.strip (PyStr.lower query)
     = PyStr.strip (PyStr.lower (Book.author book)) ->
  In book (find_book self query).
Proof.
  intros Hin Hq. unfold find_book. apply List.filter_In. split; [exact Hin|].
  unfold matches. destruct Hq as [-> | ->];
    rewrite StrFacts.contains_strip; [reflexivity|].
  now rewrite orb_true_r.
Qed.

Lemma find_book_exact_witness :
  In dune (find_book dune_shop "  DUNE ")
  /\ In dune (find_book dune_shop "herBERT").
Proof.
  split.
  - apply (find_book_exact dune_shop "  DUNE " dune);
      [left; reflexivity|left; reflexivity].
  - apply (find_book_exact dune_shop "herBERT" dune);
      [left; reflexivity|right; reflexivity].
Defined.

(** X12. After [add_book] the returned key leads to a book: to the book that
    was already filed under it when there was one, and otherwise to the book
    built from the arguments. *)
Theorem add_book_then_get now self title author price stock self' key :
  add_book now self title author price stock = inr (self', key) ->
  exists book,
    get_book_by_title self' key = Some book
    /\ (forall old, get_book_by_title self key = Some old -> book = old)
    /\ (get_book_by_title self key = None ->
        Book.__init__ title author price stock = inr book).
Proof.
  unfold add_book, bind, get_book_by_title.
  destruct (Book.__init__ title author price stock) as [e|book] eqn:Hb;
    [discriminate|].
  unfold PyDict.mem.
  destruct (PyDict.get (Book.title book) (books self)) as [old|] eqn:Hget;
    intros [= <- <-].
  - exists old. rewrite Hget. split; [reflexivity|].
    split; [now intros ? [= <-]|discriminate].
  - exists book. simpl. rewrite PyDictFacts.get_set_eq, Hget.
    split; [reflexivity|]. split; [discriminate|reflexivity].
Qed.

Lemma add_book_then_get_witness :
  exists book,
    get_book_by_title dune_shop "Dune" = Some book
    /\ (forall old, get_book_by_title dune_shop "Dune" = Some old -> book = old).
Proof.
  destruct (add_book_then_get "t1" dune_shop " Dune" "Someone"
              (F64.decimal 1 0) 9 dune_shop "Dune"
              ltac:(vm_compute; reflexivity)) as (book & Hget & Hold & _).
  exists book. split; [exact Hget|exact Hold].
Defined.

End RepositoryExtras.

(** ** More on persistence *)

Module PersistenceExtras.

Import BookstoreInventory.
Import Scenario.
Import Conditions.

(** X20. [save_inventory] touches two paths only. Every other file is left as it
    was, and the file that was at the path of the repository is never lost:
    it is the backup afterwards, replacing the backup that was there. *)
Theorem save_inventory_frame now self fs :
  (forall path,
     path <> json_file self ->
     path <> backup_of (json_file self) ->
     fst (save_inventory now self fs) !! path = fs !! path)
  /\ (forall f,
        fs !! json_file self = Some f ->
        fst (save_inventory now self fs) !! backup_of (json_file self)
        = Some f).
Proof.
  rewrite PersistenceFacts.save_inventory_effect. simpl. split.
  - intros path H1 H2. destruct (fs !! json_file self); [|reflexivity].
    rewrite lookup_insert_ne by congruence.
    now rewrite lookup_delete_ne by congruence.
  - intros f ->. apply lookup_insert_eq.
Qed.

Lemma save_inventory_frame_witness :
  fst (save_inventory "t1" dune_shop
         {[ "books.json" := Garbage; "notes.txt" := NonObject ]})
    !! "notes.txt" = Some NonObject
  /\ fst (save_inventory "t1" dune_shop
           {[ "books.json" := Garbage; "notes.txt" := NonObject ]})
      !! "books.json.backup" = Some Garbage.
Proof.
  split.
  - rewrite (proj1 (save_inventory_frame "t1" dune_shop
                      {[ "books.json" := Garbage; "notes.txt" := NonObject ]})
               "notes.txt"); [reflexivity|discriminate|discriminate].
  - apply (proj2 (save_inventory_frame "t1" dune_shop
                    {[ "books.json" := Garbage; "notes.txt" := NonObject ]})).
    reflexivity.
Defined.

Lemma mem_set {V} (d : PyDict.t V) k k' v :
  PyDict.mem k d = true -> PyDict.mem k (PyDict.set k' v d) = true.
Proof.
  unfold PyDict.mem. destruct (String.eqb_spec k' k) as [->|Hne].
  - now rewrite PyDictFacts.get_set_eq.
  - now rewrite PyDictFacts.get_set_ne.
Qed.

Lemma load_books_mem items :
  forall acc k,
    PyDict.mem k acc = true ->
    PyDict.mem k (fst (load_books items acc)) = true.
Proof.
  induction items as [|[title data] items IH]; intros acc k Hk; simpl;
    [exact Hk|].
  destruct (Book.from_dict data); [exact Hk|].
  apply IH. now apply mem_set.
Qed.

(** X21. [load_inventory] adds to the repository it is called on and never
    empties it: every key that was there is still there afterwards. The
    ledger in memory is left alone when the call returns [False] and is
    replaced, not extended, by the ledger of the document when it returns
    [True] on a document. *)
Theorem load_inventory_merges self fs :
  (forall k,
     PyDict.mem k (books self) = true ->
     PyDict.mem k (books (fst (load_inventory self fs))) = true)
  /\ (snd (load_inventory self fs) = false ->
      transaction_log (fst (load_inventory self fs)) = transaction_log self)
  /\ (forall d,
        fs !! json_file self = Some (Document d) ->
        snd (load_inventory self fs) = true ->
        transaction_log (fst (load_inventory self fs))
        = default [] (doc_transaction_log d)).
Proof.
  unfold load_inventory.
  destruct (fs !! json_file self) as [[| |d]|]; simpl;
    try (split; [auto|split; [auto|intros; discriminate]]).
  pose proof (load_books_mem (default [] (doc_books d)) (books self)) as Hm.
  destruct (load_books (default [] (doc_books d)) (books self))
    as [books' [e|u]]; simpl in *.
  - split; [auto|]. split; [reflexivity|discriminate].
  - split; [auto|]. split; [discriminate|]. now intros d' [= <-] _.
Qed.

Lemma load_inventory_merges_witness :
  PyDict.mem "Emma" (books (fst (load_inventory two_books half_good_fs)))
  = true
  /\ transaction_log (fst (load_inventory two_books half_good_fs)) = [].
Proof.
  split.
  - apply (proj1 (load_inventory_merges two_books half_good_fs)).
    reflexivity.
  - apply (proj1 (proj2 (load_inventory_merges two_books half_good_fs))).
    vm_compute. reflexivity.
Defined.

Lemma mem_snoc {V} (d : PyDict.t V) k k' v :
  k <> k' ->
  PyDict.mem k d = false ->
  PyDict.mem k (d ++ [(k', v)])%list = false.
Proof.
  unfold PyDict.mem. intros Hne.
  induction d as [|[k0 v0] d IH]; simpl.
  - destruct (String.eqb_spec k k'); congruence.
  - destruct (String.eqb k k0); auto.
Qed.

Lemma load_books_all items bs :
  Forall2 (fun item kb =>
             fst kb = fst item /\ Book.from_dict (snd item) = inr (snd kb))
          items bs ->
  NoDup (PyDict.keys items) ->
  forall acc,
    (forall k, In k (PyDict.keys items) -> PyDict.mem k acc = false) ->
    load_books items acc = ((acc ++ bs)%list, inr tt).
Proof.
  induction 1 as [|[k data] [k' b] items bs [Hk Hb] Hrest IH];
    intros Hnd acc Hacc; simpl in *.
  - now rewrite app_nil_r.
  - subst k'. rewrite Hb.
    apply NoDup_cons_iff in Hnd. destruct Hnd as [Hnin Hnd].
    rewrite (PyDictFacts.set_fresh _ _ _ (Hacc k (or_introl eq_refl))).
    rewrite (IH Hnd).
    + now rewrite <- app_assoc.
    + intros k2 Hk2. apply mem_snoc; [|auto].
      intros ->. apply Hnin. exact Hk2.
Qed.

(** X22. Opening a repository on a document whose books all can be rebuilt (and
    whose keys are distinct) returns [True] and gives exactly the rebuilt
    books, in the order of the document, each under the key of the document,
    together with the ledger of the document. *)
Theorem load_inventory_rebuilds path fs d items bs :
  fs !! path = Some (Document d) ->
  doc_books d = Some items ->
  NoDup (PyDict.keys items) ->
  Forall2 (fun item kb =>
             fst kb = fst item /\ Book.from_dict (snd item) = inr (snd kb))
          items bs ->
  load_inventory (mk path [] []) fs
  = (mk path bs (default [] (doc_transaction_log d)), true)
  /\ BookstoreInventory.__init__ path fs
     = mk path bs (default [] (doc_transaction_log d)).
Proof.
  intros Hfs Hitems Hnd Hall.
  assert (E : load_inventory (mk path [] []) fs
              = (mk path bs (default [] (doc_transaction_log d)), true)).
  { unfold load_inventory. cbn [json_file books]. rewrite Hfs.
    unfold json_load, ret. cbv beta iota. rewrite Hitems. simpl.
    rewrite (load_books_all items bs Hall Hnd []); [reflexivity|].
    reflexivity. }
  split; [exact E|]. unfold BookstoreInventory.__init__. now rewrite E.
Qed.

Lemma load_inventory_rebuilds_witness :
  load_inventory (mk "books.json" [] []) full_fs
  = (mk "books.json" [("Dune", dune); ("Emma", emma)]
       [add_entry "t0" dune 3], true).
Proof.
  apply (proj1 (load_inventory_rebuilds "books.json" full_fs full_document
                  [ ("Dune", Book.to_dict dune); ("Emma", Book.to_dict emma) ]
                  [ ("Dune", dune); ("Emma", emma) ]
                  ltac:(reflexivity) ltac:(reflexivity)
                  ltac:(repeat constructor; simpl; intuition discriminate)
                  ltac:(repeat constructor; vm_compute; reflexivity))).
Defined.

End PersistenceExtras.
